(** * AxiosBriefRSS: the DeepSeek daily-brief generator

    A shallow embedding of [deepseek_summarizer.py] and the properties of
    its four stages (article loader, prompt composer, completion client,
    brief writer) and of the command-line entry point.

    Conventions of the embedding.
    - A Python [str] is a Rocq [string] holding the text in generalized
      UTF-8: UTF-8 in which a surrogate code point, which a [str] can hold
      (the JSON escape of [d83d] alone decodes to one), is written as the
      three bytes its number gives.  The bytes of a file are a [string] too.
      A text can be written to a file opened with [encoding="utf-8"] exactly
      when it is well-formed UTF-8, that is when it holds no surrogate; on a
      POSIX system the bytes written are then the text as it is.
    - Python's [None] for an optional argument or result is [None : option _].
    - The program is sequential and talks to the outside through the file
      system, the process environment, the clock, the logger and one HTTP
      endpoint.  These live in a [world]; every primitive appends what it did
      to the world's [trace].
    - [try: ... except Exception as e: ...] is [try_except].  The
      exceptions of [exn] are all [Exception]s.
    - [main] takes the words of the command line.  When the argument
      parser leaves through [sys.exit], which is no [Exception], [main]
      ends at once with the status the parser gave. *)

From Stdlib Require Import ZArith Ascii DecimalString.
From stdpp Require Import gmap strings list.

Set Warnings "-register-all".
Open Scope string_scope.

(** ** Python values and exceptions *)

(** What [json.load] can return: the untyped tree the program passes
    through.  A float is carried as the text [json.dumps] prints for it. *)
Inductive pyval :=
| PNone
| PBool (b : bool)
| PInt (z : Z)
| PFloat (repr : string)
| PStr (s : string)
| PList (items : list pyval)
| PDict (fields : list (string * pyval)).

Inductive exn :=
| OSError (errno : nat) (filename : string)
| JSONDecodeError (msg : string)
| UnicodeDecodeError (msg : string)
| UnicodeEncodeError (msg : string)
| TypeError (msg : string)
| OpenAIError (msg : string).

Definition ENOENT : nat := 2.
Definition EEXIST : nat := 17.
Definition ENOTDIR : nat := 20.
Definition EISDIR : nat := 21.
Definition EROFS : nat := 30.

Inductive outcome (A : Type) :=
| Return (a : A)
| Raise (e : exn).
Arguments Return {A} a.
Arguments Raise {A} e.

(** ** Texts *)

(** Well-formed UTF-8, on the byte values of a text. *)
Definition cont (b : nat) : bool := (128 <=? b)%nat && (b <=? 191)%nat.

Fixpoint utf8_valid_bytes (fuel : nat) (bs : list nat) : bool :=
  match fuel with
  | O => false
  | S fuel' =>
      match bs with
      | [] => true
      | b :: rest =>
          if (b <? 128)%nat then utf8_valid_bytes fuel' rest
          else if (194 <=? b)%nat && (b <=? 223)%nat then
            match rest with
            | b1 :: rest' => cont b1 && utf8_valid_bytes fuel' rest'
            | _ => false
            end
          else if (224 <=? b)%nat && (b <=? 239)%nat then
            match rest with
            | b1 :: b2 :: rest' =>
                cont b1 && cont b2
                && (if (b =? 224)%nat then (160 <=? b1)%nat
                    else if (b =? 237)%nat then (b1 <=? 159)%nat
                    else true)
                && utf8_valid_bytes fuel' rest'
            | _ => false
            end
          else if (240 <=? b)%nat && (b <=? 244)%nat then
            match rest with
            | b1 :: b2 :: b3 :: rest' =>
                cont b1 && cont b2 && cont b3
                && (if (b =? 240)%nat then (144 <=? b1)%nat
                    else if (b =? 244)%nat then (b1 <=? 143)%nat
                    else true)
                && utf8_valid_bytes fuel' rest'
            | _ => false
            end
          else false
      end
  end.

Fixpoint bytes_of (s : string) : list nat :=
  match s with
  | EmptyString => []
  | String c rest => nat_of_ascii c :: bytes_of rest
  end.

Definition utf8_valid (s : string) : bool :=
  utf8_valid_bytes (S (String.length s)) (bytes_of s).

(** The code points of a text in generalized UTF-8, from its bytes. *)
Fixpoint code_point_list (bs : list N) : list N :=
  match bs with
  | [] => []
  | b :: rest =>
      if (b <? 192)%N then b :: code_point_list rest
      else if (b <? 224)%N then
        match rest with
        | b1 :: rest' => ((b - 192) * 64 + (b1 - 128))%N :: code_point_list rest'
        | _ => [b]
        end
      else if (b <? 240)%N then
        match rest with
        | b1 :: b2 :: rest' =>
            ((b - 224) * 4096 + (b1 - 128) * 64 + (b2 - 128))%N
              :: code_point_list rest'
        | _ => [b]
        end
      else
        match rest with
        | b1 :: b2 :: b3 :: rest' =>
            ((b - 240) * 262144 + (b1 - 128) * 4096 + (b2 - 128) * 64
             + (b3 - 128))%N :: code_point_list rest'
        | _ => [b]
        end
  end.

Definition code_points_of (s : string) : list N :=
  code_point_list (map N_of_ascii (String.list_ascii_of_string s)).

Definition str_nat (n : nat) : string :=
  NilEmpty.string_of_uint (Nat.to_uint n).

Definition hex_digit (n : nat) : string :=
  String.substring n 1 "0123456789abcdef".

Definition hex4 (n : N) : string :=
  hex_digit (N.to_nat (n / 4096 mod 16)) ++ hex_digit (N.to_nat (n / 256 mod 16))
    ++ hex_digit (N.to_nat (n / 16 mod 16)) ++ hex_digit (N.to_nat (n mod 16)).

Definition is_surrogate (cp : N) : bool :=
  (55296 <=? cp)%N && (cp <=? 57343)%N.

Fixpoint surrogates_ahead (cps : list N) : nat :=
  match cps with
  | cp :: rest => if is_surrogate cp then S (surrogates_ahead rest) else 0
  | [] => 0
  end.

(** The first surrogates of a text: where they start, how many follow
    each other there, and the first of them. *)
Fixpoint first_surrogates (cps : list N) (position : nat) : option (nat * nat * N) :=
  match cps with
  | [] => None
  | cp :: rest =>
      if is_surrogate cp then Some (position, surrogates_ahead cps, cp)
      else first_surrogates rest (S position)
  end.

(** [str(e)] of the [UnicodeEncodeError] of a text. *)
Definition encode_error_message (s : string) : string :=
  match first_surrogates (code_points_of s) 0 with
  | Some (start, 1, cp) =>
      "'utf-8' codec can't encode character '\u" ++ hex4 cp ++ "' in position "
        ++ str_nat start ++ ": surrogates not allowed"
  | Some (start, n, _) =>
      "'utf-8' codec can't encode characters in position " ++ str_nat start
        ++ "-" ++ str_nat (start + n - 1) ++ ": surrogates not allowed"
  | None => "'utf-8' codec can't encode the text"
  end.

(** [s.encode("utf-8")], which a text file opened with [encoding="utf-8"]
    applies to what is written to it: a surrogate cannot be encoded.  (A
    [string] that is not even generalized UTF-8 stands for no text.) *)
Definition utf8_encode (s : string) : outcome string :=
  if utf8_valid s then Return s
  else Raise (UnicodeEncodeError (encode_error_message s)).

(** Truth value testing, as [if not x] uses it. *)
Definition truthy_str (o : option string) : bool :=
  match o with
  | None => false
  | Some s => negb (String.eqb s "")
  end.

Definition truthy_val (v : pyval) : bool :=
  match v with
  | PNone => false
  | PBool b => b
  | PInt z => negb (Z.eqb z 0)
  | PFloat r => negb (String.eqb r "0.0" || String.eqb r "-0.0")
  | PStr s => negb (String.eqb s "")
  | PList items => match items with [] => false | _ => true end
  | PDict fields => match fields with [] => false | _ => true end
  end.

Definition truthy (o : option pyval) : bool :=
  match o with
  | None => false
  | Some v => truthy_val v
  end.

(** Number of code points of a UTF-8 text: the bytes that are not
    continuation bytes (10xxxxxx). *)
Fixpoint code_points (s : string) : nat :=
  match s with
  | EmptyString => 0
  | String a rest =>
      let n := Ascii.nat_of_ascii a in
      if (128 <=? n)%nat && (n <? 192)%nat then code_points rest
      else S (code_points rest)
  end.

(** The built-in [len]: defined on sized values only. *)
Definition len (v : pyval) : outcome nat :=
  match v with
  | PStr s => Return (code_points s)
  | PList items => Return (length items)
  | PDict fields => Return (length fields)
  | PNone => Raise (TypeError "object of type 'NoneType' has no len()")
  | PBool _ => Raise (TypeError "object of type 'bool' has no len()")
  | PInt _ => Raise (TypeError "object of type 'int' has no len()")
  | PFloat _ => Raise (TypeError "object of type 'float' has no len()")
  end.

(** ** The world *)

(** A directory, or a regular file with its content. *)
Inductive node :=
| Dir
| File (content : string).

(** The file system as the program sees it: the entries, keyed by the path
    the program spells, and whether the volume refuses modification. *)
Record filesys := FileSys {
  read_only : bool;
  entries : gmap string node
}.

Record datetime := DateTime {
  year : nat;
  month : nat;
  day : nat
}.

(** One chat-completion request: the client configuration and the
    arguments of [client.chat.completions.create].  The temperature 0.6 is
    counted in tenths. *)
Record request := Request {
  req_api_key : string;
  req_base_url : string;
  req_model : string;
  req_messages : list (string * string);
  req_temperature_tenths : nat;
  req_max_tokens : nat;
  req_stream : bool
}.

(** What the endpoint answers: an exception of the client library, or a
    response whose choices each carry an optional message content. *)
Inductive api_result :=
| ApiRaise (e : exn)
| ApiResponse (choices : list (option string)).

Inductive level := INFO | ERROR.

(** What the program does to the outside, one entry per library call. *)
Inductive effect :=
| LogRecord (lv : level) (msg : string)
| PathExists (path : string)
| MakeDirs (path : string)
| OpenRead (path : string)
| OpenWrite (path : string)
| EnvGet (key : string)
| EnvSet (key value : string)
| ClockRead
| HttpPost (r : request).

Definition is_clock_read (e : effect) : option unit :=
  match e with
  | ClockRead => Some tt
  | _ => None
  end.

(** The looks at the clock in a trace. *)
Definition clock_reads (t : list effect) : list unit :=
  omap is_clock_read t.

(** The outside of the process: the file system, [os.environ], the clock,
    the completion endpoint, and the effects recorded so far, oldest
    first.  The clock is the sequence of dates it shows in US/Eastern:
    [eastern_now n] is what the look number [n] of the run (counted from 0)
    sees, so two looks of one run can see different days. *)
Record world := World {
  fs : filesys;
  environ : gmap string string;
  eastern_now : nat → datetime;
  endpoint : request → api_result;
  trace : list effect
}.

(** How often the clock was looked at so far. *)
Definition looks (w : world) : nat := length (clock_reads (trace w)).

(** ** The monad of the program: state and exceptions *)

Definition M (A : Type) : Type := world → outcome A * world.

Definition ret {A} (a : A) : M A := λ w, (Return a, w).

Definition raise {A} (e : exn) : M A := λ w, (Raise e, w).

Definition bind {A B} (m : M A) (k : A → M B) : M B :=
  λ w, match m w with
       | (Return a, w') => k a w'
       | (Raise e, w') => (Raise e, w')
       end.

Definition try_except {A} (body : M A) (handler : exn → M A) : M A :=
  λ w, match body w with
       | (Return a, w') => (Return a, w')
       | (Raise e, w') => handler e w'
       end.

Definition lift {A} (o : outcome A) : M A := λ w, (o, w).

Notation "'do' x <- m ; k" := (bind m (λ x, k))
  (at level 10, x name, m at level 100, k at level 200,
   format "'[v' 'do'  x  <-  m ; '/' k ']'").
Notation "'run' m ; k" := (bind m (λ _, k))
  (at level 10, m at level 100, k at level 200,
   format "'[v' 'run'  m ; '/' k ']'").

Definition emit (e : effect) : M unit :=
  λ w, (Return tt,
        {| fs := fs w; environ := environ w; eastern_now := eastern_now w;
           endpoint := endpoint w; trace := trace w ++ [e] |}).

Definition set_fs (f : filesys) : M unit :=
  λ w, (Return tt,
        {| fs := f; environ := environ w; eastern_now := eastern_now w;
           endpoint := endpoint w; trace := trace w |}).

Definition set_environ (e : gmap string string) : M unit :=
  λ w, (Return tt,
        {| fs := fs w; environ := e; eastern_now := eastern_now w;
           endpoint := endpoint w; trace := trace w |}).

Definition get_world : M world := λ w, (Return w, w).

(** ** The library primitives the program calls *)

Definition logger_info (msg : string) : M unit := emit (LogRecord INFO msg).
Definition logger_error (msg : string) : M unit := emit (LogRecord ERROR msg).

Definition starts_with_slash (s : string) : bool :=
  match s with
  | String c _ => Ascii.eqb c "/"%char
  | EmptyString => false
  end.

Fixpoint ends_with_slash (s : string) : bool :=
  match s with
  | EmptyString => false
  | String c EmptyString => Ascii.eqb c "/"%char
  | String _ rest => ends_with_slash rest
  end.

(** [os.path.join a b] of [posixpath], for two components. *)
Definition os_path_join (a b : string) : string :=
  if starts_with_slash b then b
  else if String.eqb a "" || ends_with_slash a then a ++ b
  else a ++ "/" ++ b.

(** Position just after the last slash of a path, if it has one. *)
Fixpoint after_last_slash (s : string) : option nat :=
  match s with
  | EmptyString => None
  | String c rest =>
      match after_last_slash rest with
      | Some i => Some (S i)
      | None => if Ascii.eqb c "/"%char then Some 1 else None
      end
  end.

Fixpoint all_slashes (s : string) : bool :=
  match s with
  | EmptyString => true
  | String c rest => Ascii.eqb c "/"%char && all_slashes rest
  end.

Fixpoint rstrip_slashes (s : string) : string :=
  match s with
  | EmptyString => EmptyString
  | String c rest =>
      match rstrip_slashes rest with
      | EmptyString => if Ascii.eqb c "/"%char then EmptyString else String c EmptyString
      | rest' => String c rest'
      end
  end.

(** [os.path.dirname] of [posixpath]. *)
Definition os_path_dirname (p : string) : string :=
  match after_last_slash p with
  | None => ""
  | Some i =>
      let head := String.substring 0 i p in
      if all_slashes head then head else rstrip_slashes head
  end.

Definition os_path_exists (path : string) : M bool :=
  run emit (PathExists path);
  do w <- get_world;
  ret (match entries (fs w) !! path with
       | Some _ => true
       | None => false
       end).

(** Is the directory part of a path a directory one can resolve?  The
    empty directory part is the working directory. *)
Definition resolve_dir (f : filesys) (d : string) : outcome unit :=
  if String.eqb d "" then Return tt
  else match entries f !! d with
       | Some Dir => Return tt
       | Some (File _) => Raise (OSError ENOTDIR d)
       | None => Raise (OSError ENOENT d)
       end.

(** [os.makedirs path] for a path of one component, which is how the
    program calls it. *)
Definition os_makedirs (path : string) : M unit :=
  run emit (MakeDirs path);
  do w <- get_world;
  match entries (fs w) !! path with
  | Some _ => raise (OSError EEXIST path)
  | None =>
      if read_only (fs w) then raise (OSError EROFS path)
      else set_fs {| read_only := read_only (fs w);
                     entries := <[path := Dir]> (entries (fs w)) |}
  end.

(** [with open(path, "r", encoding="utf-8") as f: f.read()]. *)
Definition read_text (path : string) : M string :=
  run emit (OpenRead path);
  do w <- get_world;
  match entries (fs w) !! path with
  | Some (File content) => ret content
  | Some Dir => raise (OSError EISDIR path)
  | None => raise (OSError ENOENT path)
  end.

(** [open(path, "w", encoding="utf-8")]: the file is created, or emptied
    at once when it is there. *)
Definition open_for_writing (path : string) : M unit :=
  run emit (OpenWrite path);
  do w <- get_world;
  match resolve_dir (fs w) (os_path_dirname path) with
  | Raise e => raise (match e with
                      | OSError n _ => OSError n path
                      | _ => e
                      end)
  | Return _ =>
      match entries (fs w) !! path with
      | Some Dir => raise (OSError EISDIR path)
      | _ =>
          if read_only (fs w) then raise (OSError EROFS path)
          else set_fs {| read_only := read_only (fs w);
                         entries := <[path := File ""]> (entries (fs w)) |}
      end
  end.

(** [f.write(content)] on the file just opened, and the end of the [with]
    block: the text is encoded before any of it is written, so a text that
    cannot be encoded leaves the file as [open] made it, empty. *)
Definition file_write (path content : string) : M unit :=
  do data <- lift (utf8_encode content);
  do w <- get_world;
  set_fs {| read_only := read_only (fs w);
            entries := <[path := File data]> (entries (fs w)) |}.

(** [with open(path, "w", encoding="utf-8") as f: f.write(content)]. *)
Definition write_text (path content : string) : M unit :=
  run open_for_writing path;
  file_write path content.

Definition os_environ_get (key : string) : M (option string) :=
  run emit (EnvGet key);
  do w <- get_world;
  ret (environ w !! key).

Definition os_environ_set (key value : string) : M unit :=
  run emit (EnvSet key value);
  do w <- get_world;
  set_environ (<[key := value]> (environ w)).

(** [client.chat.completions.create(...)]: the one network call. *)
Definition chat_completions_create (r : request) : M (list (option string)) :=
  run emit (HttpPost r);
  do w <- get_world;
  match endpoint w r with
  | ApiRaise e => raise e
  | ApiResponse choices => ret choices
  end.

Definition pad2 (n : nat) : string :=
  if (n <? 10)%nat then "0" ++ str_nat n else str_nat n.

Definition pad4 (n : nat) : string :=
  if (n <? 10)%nat then "000" ++ str_nat n
  else if (n <? 100)%nat then "00" ++ str_nat n
  else if (n <? 1000)%nat then "0" ++ str_nat n
  else str_nat n.

(** [now.strftime("%Y%m%d")]. *)
Definition strftime_Ymd (now : datetime) : string :=
  pad4 (year now) ++ pad2 (month now) ++ pad2 (day now).

(** ** The program *)

Definition ARTICLES_DIR : string := "articles".
Definition DAILYBRIEF_DIR : string := "dailybrief".
Definition DEFAULT_MODEL : string := "deepseek-chat".
Definition DEEPSEEK_API_URL : string := "https://api.deepseek.com".

Definition ensure_dir_exists (directory : string) : M unit :=
  do present <- os_path_exists directory;
  if negb present then
    run os_makedirs directory;
    logger_info ("创建目录: " ++ directory)
  else ret tt.

Definition get_eastern_time : M datetime :=
  do w <- get_world;
  run emit ClockRead;
  ret (eastern_now w (looks w)).

Definition DEFAULT_PROMPT : string := "作为资深投资顾问以及新闻编辑，请将以下JSON格式的新闻条目整合为每日简报。
## 要求
1. 首段总结当日核心事件
2. 每个新闻单独段落，包含：
   - 关键事实
   - 影响分析
   - 相关背景
3. 结尾添加投资决策建议及风险提示
4. 使用Markdown格式，注意排版美观、专业、易于阅读
5. 对所有内容生成双语版本（中/英），以便对比阅读。注意格式美观、专业、易于阅读

## 注意
输出仅返回markdown内容（不要包含```markdown等符号），请勿返回任何其他内容。你的内容将直接用于展示。
".

(** The line feed of the f-string in [call_deepseek_api]. *)
Definition LF : string := String (ascii_of_nat 10) EmptyString.

(** [f"{x}"] of an optional text: [None] prints as its name. *)
Definition format_opt (o : option string) : string :=
  match o with
  | Some s => s
  | None => "None"
  end.

(** An optional value as the Python object it is. *)
Definition as_pyval (o : option pyval) : pyval :=
  match o with
  | Some v => v
  | None => PNone
  end.

(** The parsed command line: [--api-key], [--date], [--model]. *)
Record arguments := Args {
  args_api_key : option string;
  args_date : option string;
  args_model : option string
}.

(** What [parser.parse_args()] does with the words of the command line:
    it returns the namespace of the three flags, or it leaves the program
    through [sys.exit], with status 2 for a command line it rejects and
    status 0 after it printed the help.  [SystemExit] is no [Exception]:
    no handler of the program catches it. *)
Inductive parse_result :=
| Namespace (args : arguments)
| SystemExit (status : nat).

(** How a call of [main] ends: it returns, an exception leaves it, or the
    program was left through [sys.exit]. *)
Inductive ending :=
| Returned
| Uncaught (e : exn)
| Exited (status : nat).

Section Program.

(** The library functions whose results the program only passes on:
    [json.load] on the text of a file (a value, or the exception it
    raises), [json.dumps(obj, ensure_ascii=..., indent=...)], [str(e)] of
    an exception, and [parse_args] of the parser [main] builds, on the
    words of the command line. *)
Context (json_load : string → outcome pyval).
Context (json_dumps : bool → option nat → pyval → string).
Context (str_exn : exn → string).
Context (parse_args : list string → parse_result).

Definition load_articles (date_str : option string) : M (option pyval) :=
  try_except
    (do date_str <- (if negb (truthy_str date_str) then
                       do now <- get_eastern_time;
                       ret (strftime_Ymd now)
                     else ret (default "" date_str));
     let filepath := os_path_join ARTICLES_DIR (date_str ++ ".json") in
     do present <- os_path_exists filepath;
     if negb present then
       run logger_error ("文件不存在: " ++ filepath);
       ret None
     else
       do text <- read_text filepath;
       do articles <- lift (json_load text);
       do n <- lift (len articles);
       run logger_info ("从 " ++ filepath ++ " 加载了 " ++ str_nat n ++ " 篇文章");
       ret (Some articles))
    (λ e,
       run logger_error ("加载文章失败: " ++ str_exn e);
       ret None).

(** Lines 95 to 126 of [call_deepseek_api]: the part of its [try] body
    that runs once the key is known. *)
Definition request_summary (api_key : string) (prompt : option string)
    (articles : option pyval) : M (option string) :=
  let messages :=
    [("user",
      format_opt prompt ++ LF ++ LF ++ "输入数据:" ++ LF
        ++ json_dumps false (Some 2) (as_pyval articles))] in
  do model <- os_environ_get "SUMMARY_MODEL";
  do choices <- chat_completions_create
                  {| req_api_key := api_key;
                     req_base_url := DEEPSEEK_API_URL;
                     req_model := default DEFAULT_MODEL model;
                     req_messages := messages;
                     req_temperature_tenths := 6;
                     req_max_tokens := 4096;
                     req_stream := false |};
  match choices with
  | text :: _ =>
      run logger_info "成功生成摘要";
      ret text
  | [] =>
      run logger_error "API响应中未找到有效的choices";
      ret None
  end.

Definition call_deepseek_api (api_key : option string) (prompt : option string)
    (articles : option pyval) : M (option string) :=
  try_except
    (match api_key with
     | None =>
         do api_key <- os_environ_get "DEEPSEEK_API_KEY";
         if negb (truthy_str api_key) then
           run logger_error "未设置DEEPSEEK_API_KEY环境变量";
           ret None
         else request_summary (default "" api_key) prompt articles
     | Some api_key => request_summary api_key prompt articles
     end)
    (λ e,
       run logger_error ("调用DeepSeek API失败: " ++ str_exn e);
       ret None).

Definition save_daily_brief (content : string) (date_str : option string)
    : M (option string) :=
  try_except
    (do date_str <- (if negb (truthy_str date_str) then
                       do now <- get_eastern_time;
                       ret (strftime_Ymd now)
                     else ret (default "" date_str));
     run ensure_dir_exists DAILYBRIEF_DIR;
     let filepath := os_path_join DAILYBRIEF_DIR (date_str ++ ".md") in
     run write_text filepath content;
     run logger_info ("简报已保存到 " ++ filepath);
     ret (Some filepath))
    (λ e,
       run logger_error ("保存简报失败: " ++ str_exn e);
       ret None).

(** Lines 162 to 171 of [generate_daily_brief]: what it does once the
    key is known. *)
Definition brief_from_articles (api_key : string) (prompt : string)
    (date_str : option string) : M bool :=
  do articles <- load_articles date_str;
  if negb (truthy articles) then ret false
  else
    run logger_info "调用DeepSeek API...";
    do summary <- call_deepseek_api (Some api_key) (Some prompt) articles;
    if negb (truthy_str summary) then ret false
    else
      do saved <- save_daily_brief (default "" summary) date_str;
      ret (match saved with Some _ => true | None => false end).

Definition generate_daily_brief (api_key : option string)
    (date_str : option string) : M bool :=
  let prompt := DEFAULT_PROMPT in
  match api_key with
  | None =>
      do api_key <- os_environ_get "DEEPSEEK_API_KEY";
      if negb (truthy_str api_key) then
        run logger_error "需要DEEPSEEK_API_KEY";
        ret false
      else brief_from_articles (default "" api_key) prompt date_str
  | Some api_key => brief_from_articles api_key prompt date_str
  end.

(** Lines 181 to 194 of [main]: what it does with the parsed command
    line. *)
Definition main_with_flags (args : arguments) : M unit :=
  run (if truthy_str (args_model args) then
         os_environ_set "DEEPSEEK_MODEL" (default "" (args_model args))
       else ret tt);
  run (if truthy_str (args_api_key args) then
         os_environ_set "DEEPSEEK_API_KEY" (default "" (args_api_key args))
       else ret tt);
  run ensure_dir_exists DAILYBRIEF_DIR;
  do success <- generate_daily_brief None (args_date args);
  if success then logger_info "简报生成成功"
  else logger_error "简报生成失败".

(** [main] on the words of the command line, [sys.argv[1:]], as the
    operating system hands them to the process.  The parser is built and
    run before anything else is done; what it prints is not part of the
    model. *)
Definition main (argv : list string) (w : world) : ending * world :=
  match parse_args argv with
  | SystemExit status => (Exited status, w)
  | Namespace args =>
      match main_with_flags args w with
      | (Return _, w') => (Returned, w')
      | (Raise e, w') => (Uncaught e, w')
      end
  end.


End Program.

(** ** A reference JSON library

    An executable instance of the library functions on values and
    exceptions, used to run the program on concrete files.  [dumps] is
    [json.dumps] of the values of [pyval], with its parameters
    [ensure_ascii] and [indent] and the other ones left at their defaults;
    [loads] reads the fragment of JSON without fractional or exponent
    numbers, without the [NaN] and [Infinity] literals and without [\u]
    escapes, and reports any other text as undecodable. *)
Module JsonRef.

Definition DQ : ascii := ascii_of_nat 34.
Definition BACKSLASH : ascii := ascii_of_nat 92.

Definition str_Z (z : Z) : string := NilEmpty.string_of_int (Z.to_int z).

(** The replacement table of the encoder when [ensure_ascii] is off:
    quote, backslash and the control characters; every other byte, with
    those of a non-ASCII character, stays as it is. *)
Definition escape_char (c : ascii) : string :=
  let n := nat_of_ascii c in
  if Ascii.eqb c DQ then String BACKSLASH (String DQ EmptyString)
  else if Ascii.eqb c BACKSLASH then String BACKSLASH (String BACKSLASH EmptyString)
  else if (n =? 8)%nat then String BACKSLASH "b"
  else if (n =? 9)%nat then String BACKSLASH "t"
  else if (n =? 10)%nat then String BACKSLASH "n"
  else if (n =? 12)%nat then String BACKSLASH "f"
  else if (n =? 13)%nat then String BACKSLASH "r"
  else if (n <? 32)%nat then
    String BACKSLASH "u00" ++ hex_digit (n / 16) ++ hex_digit (n mod 16)
  else String c EmptyString.

Fixpoint escape (s : string) : string :=
  match s with
  | EmptyString => EmptyString
  | String c rest => escape_char c ++ escape rest
  end.

(** The replacement of a code point when [ensure_ascii] is on: what is
    not printable ASCII becomes a [\u] escape, two of them (a surrogate
    pair) beyond the basic plane. *)
Definition escape_code_point (cp : N) : string :=
  if (cp <? 127)%N then escape_char (ascii_of_N cp)
  else if (cp <? 65536)%N then String BACKSLASH "u" ++ hex4 cp
  else
    let v := (cp - 65536)%N in
    String BACKSLASH "u" ++ hex4 (55296 + v / 1024)
      ++ String BACKSLASH "u" ++ hex4 (56320 + v mod 1024).

Fixpoint concat_strings (parts : list string) : string :=
  match parts with
  | [] => EmptyString
  | p :: rest => p ++ concat_strings rest
  end.

Definition encode_str (ensure_ascii : bool) (s : string) : string :=
  String DQ (if ensure_ascii
             then concat_strings (map escape_code_point (code_points_of s))
             else escape s)
    ++ String DQ EmptyString.

Fixpoint spaces (n : nat) : string :=
  match n with
  | O => EmptyString
  | S n' => String " " (spaces n')
  end.

(** Between the items of an array or object: with an [indent], a line
    feed and [indent] blanks for each level; without one, nothing. *)
Definition newline_indent (indent : option nat) (level : nat) : string :=
  match indent with
  | Some n => LF ++ spaces (n * level)
  | None => EmptyString
  end.

Definition item_separator (indent : option nat) : string :=
  match indent with
  | Some _ => ","
  | None => ", "
  end.

Fixpoint join (sep : string) (parts : list string) : string :=
  match parts with
  | [] => EmptyString
  | [p] => p
  | p :: rest => p ++ sep ++ join sep rest
  end.

Fixpoint dumps_at (ensure_ascii : bool) (indent : option nat) (level : nat)
    (v : pyval) : string :=
  match v with
  | PNone => "null"
  | PBool true => "true"
  | PBool false => "false"
  | PInt z => str_Z z
  | PFloat r => r
  | PStr s => encode_str ensure_ascii s
  | PList [] => "[]"
  | PList items =>
      "[" ++ newline_indent indent (S level)
        ++ join (item_separator indent ++ newline_indent indent (S level))
             (map (dumps_at ensure_ascii indent (S level)) items)
        ++ newline_indent indent level ++ "]"
  | PDict [] => "{}"
  | PDict fields =>
      "{" ++ newline_indent indent (S level)
        ++ join (item_separator indent ++ newline_indent indent (S level))
             (map (λ kv, encode_str ensure_ascii (fst kv) ++ ": "
                         ++ dumps_at ensure_ascii indent (S level) (snd kv))
                fields)
        ++ newline_indent indent level ++ "}"
  end.

Definition dumps (ensure_ascii : bool) (indent : option nat) (v : pyval)
    : string :=
  dumps_at ensure_ascii indent 0 v.

(** *** Reading *)

Definition is_ws (c : ascii) : bool :=
  let n := nat_of_ascii c in
  (n =? 32)%nat || (n =? 9)%nat || (n =? 10)%nat || (n =? 13)%nat.

Definition is_digit (c : ascii) : bool :=
  let n := nat_of_ascii c in (48 <=? n)%nat && (n <=? 57)%nat.

Fixpoint skip_ws (s : string) : string :=
  match s with
  | String c rest => if is_ws c then skip_ws rest else s
  | EmptyString => s
  end.

Fixpoint strip_prefix (p s : string) : option string :=
  match p, s with
  | EmptyString, _ => Some s
  | String a p', String b s' => if Ascii.eqb a b then strip_prefix p' s' else None
  | String _ _, EmptyString => None
  end.

Definition unescape (c : ascii) : option ascii :=
  let n := nat_of_ascii c in
  if (n =? 34)%nat || (n =? 92)%nat || (n =? 47)%nat then Some c
  else if Ascii.eqb c "b" then Some (ascii_of_nat 8)
  else if Ascii.eqb c "f" then Some (ascii_of_nat 12)
  else if Ascii.eqb c "n" then Some (ascii_of_nat 10)
  else if Ascii.eqb c "r" then Some (ascii_of_nat 13)
  else if Ascii.eqb c "t" then Some (ascii_of_nat 9)
  else None.

(** The characters of a string literal, after its opening quote. *)
Fixpoint parse_chars (s : string) : option (string * string) :=
  match s with
  | EmptyString => None
  | String c rest =>
      if Ascii.eqb c DQ then Some (EmptyString, rest)
      else if Ascii.eqb c BACKSLASH then
        match rest with
        | String e rest' =>
            match unescape e, parse_chars rest' with
            | Some c', Some (t, r) => Some (String c' t, r)
            | _, _ => None
            end
        | EmptyString => None
        end
      else if (nat_of_ascii c <? 32)%nat then None
      else match parse_chars rest with
           | Some (t, r) => Some (String c t, r)
           | None => None
           end
  end.

Fixpoint take_digits (s : string) (acc : Z) : Z * string :=
  match s with
  | String c rest =>
      if is_digit c
      then take_digits rest (10 * acc + Z.of_nat (nat_of_ascii c - 48))
      else (acc, s)
  | EmptyString => (acc, s)
  end.

Definition starts_fraction (s : string) : bool :=
  match s with
  | String c _ => Ascii.eqb c "." || Ascii.eqb c "e" || Ascii.eqb c "E"
  | EmptyString => false
  end.

Definition parse_number (s : string) : option (pyval * string) :=
  let '(negative, body) :=
    match s with
    | String c rest => if Ascii.eqb c "-" then (true, rest) else (false, s)
    | EmptyString => (false, s)
    end in
  match body with
  | String c rest =>
      let '(z, after) :=
        if Ascii.eqb c "0" then (Some 0%Z, rest)
        else if is_digit c then
          let '(z, after) := take_digits body 0 in (Some z, after)
        else (None, body) in
      match z with
      | Some z =>
          if starts_fraction after then None
          else Some (PInt (if negative : bool then - z else z), after)
      | None => None
      end
  | EmptyString => None
  end.

(** [dict(pairs)]: a repeated key keeps its first place and takes the
    last value. *)
Fixpoint dict_set (k : string) (v : pyval) (d : list (string * pyval))
    : list (string * pyval) :=
  match d with
  | [] => [(k, v)]
  | (k', v') :: rest =>
      if String.eqb k k' then (k', v) :: rest else (k', v') :: dict_set k v rest
  end.

Definition to_dict (pairs : list (string * pyval)) : list (string * pyval) :=
  fold_left (λ d kv, dict_set (fst kv) (snd kv) d) pairs [].

Fixpoint parse_value (fuel : nat) (s : string) : option (pyval * string) :=
  match fuel with
  | O => None
  | S fuel' =>
      match s with
      | EmptyString => None
      | String c rest =>
          if Ascii.eqb c DQ then
            match parse_chars rest with
            | Some (t, r) => Some (PStr t, r)
            | None => None
            end
          else if Ascii.eqb c "[" then
            match skip_ws rest with
            | String c' rest' as inner =>
                if Ascii.eqb c' "]" then Some (PList [], rest')
                else match parse_items fuel' inner with
                     | Some (items, r) => Some (PList items, r)
                     | None => None
                     end
            | EmptyString => None
            end
          else if Ascii.eqb c "{" then
            match skip_ws rest with
            | String c' rest' as inner =>
                if Ascii.eqb c' "}" then Some (PDict [], rest')
                else match parse_members fuel' inner with
                     | Some (pairs, r) => Some (PDict (to_dict pairs), r)
                     | None => None
                     end
            | EmptyString => None
            end
          else if Ascii.eqb c "n" then
            option_map (pair PNone) (strip_prefix "null" s)
          else if Ascii.eqb c "t" then
            option_map (pair (PBool true)) (strip_prefix "true" s)
          else if Ascii.eqb c "f" then
            option_map (pair (PBool false)) (strip_prefix "false" s)
          else parse_number s
      end
  end
with parse_items (fuel : nat) (s : string) : option (list pyval * string) :=
  match fuel with
  | O => None
  | S fuel' =>
      match parse_value fuel' s with
      | Some (v, r) =>
          match skip_ws r with
          | String c r' =>
              if Ascii.eqb c "," then
                match parse_items fuel' (skip_ws r') with
                | Some (vs, r'') => Some (v :: vs, r'')
                | None => None
                end
              else if Ascii.eqb c "]" then Some ([v], r')
              else None
          | EmptyString => None
          end
      | None => None
      end
  end
with parse_members (fuel : nat) (s : string)
    : option (list (string * pyval) * string) :=
  match fuel with
  | O => None
  | S fuel' =>
      match s with
      | String q rest =>
          if Ascii.eqb q DQ then
            match parse_chars rest with
            | Some (k, r) =>
                match skip_ws r with
                | String colon r1 =>
                    if Ascii.eqb colon ":" then
                      match parse_value fuel' (skip_ws r1) with
                      | Some (v, r2) =>
                          match skip_ws r2 with
                          | String c r3 =>
                              if Ascii.eqb c "," then
                                match parse_members fuel' (skip_ws r3) with
                                | Some (kvs, r4) => Some ((k, v) :: kvs, r4)
                                | None => None
                                end
                              else if Ascii.eqb c "}" then Some ([(k, v)], r3)
                              else None
                          | EmptyString => None
                          end
                      | None => None
                      end
                    else None
                | EmptyString => None
                end
            | None => None
            end
          else None
      | EmptyString => None
      end
  end.

Definition loads (text : string) : outcome pyval :=
  if negb (utf8_valid text) then
    Raise (UnicodeDecodeError "'utf-8' codec can't decode the input")
  else
    match parse_value (2 * String.length text + 2) (skip_ws text) with
    | Some (v, rest) =>
        match skip_ws rest with
        | EmptyString => Return v
        | String _ _ => Raise (JSONDecodeError "Extra data")
        end
    | None => Raise (JSONDecodeError "Expecting value")
    end.

(** *** Exceptions as text *)

Definition strerror (errno : nat) : string :=
  if (errno =? ENOENT)%nat then "No such file or directory"
  else if (errno =? EEXIST)%nat then "File exists"
  else if (errno =? ENOTDIR)%nat then "Not a directory"
  else if (errno =? EISDIR)%nat then "Is a directory"
  else if (errno =? EROFS)%nat then "Read-only file system"
  else "Unknown error " ++ str_nat errno.

(** [str(e)], for file names that [repr] prints between single quotes
    as they are. *)
Definition str_exn (e : exn) : string :=
  match e with
  | OSError errno filename =>
      "[Errno " ++ str_nat errno ++ "] " ++ strerror errno ++ ": '" ++ filename ++ "'"
  | JSONDecodeError msg => msg
  | UnicodeDecodeError msg => msg
  | UnicodeEncodeError msg => msg
  | TypeError msg => msg
  | OpenAIError msg => msg
  end.

End JsonRef.

(** ** A reference command-line parser

    An executable instance of [parse_args] for the parser [main] builds:
    the three flags, each taking one value, and the help flag that
    [argparse] adds.  It follows [argparse] of CPython 3.11: a flag can be
    abbreviated and can carry its value after an equals sign, a value can
    look like a negative number but not like a flag, the help flag leaves
    with status 0 as soon as it is reached, and any other word is counted
    as unrecognized, which makes the parser leave with status 2 in the
    end. *)
Module ArgRef.

Inductive action := Help | ApiKey | Date | Model.

Definition long_options : list (string * action) :=
  [("--help", Help); ("--api-key", ApiKey); ("--date", Date); ("--model", Model)].

Definition lookup_long (word : string) : option action :=
  snd <$> List.find (λ o, String.eqb (fst o) word) long_options.

(** How the parser reads one word: as an argument, or as a flag, known or
    not ([None]), with the value joined to it if there is one, and whether
    it is the one-letter form. *)
Inductive reading :=
| Argument
| Separator
| Flag (a : option action) (explicit : option string) (short : bool)
| Ambiguous.

(** A word split at its first equals sign. *)
Fixpoint split_equals (s : string) : option (string * string) :=
  match s with
  | EmptyString => None
  | String c rest =>
      if Ascii.eqb c "="%char then Some (EmptyString, rest)
      else match split_equals rest with
           | Some (a, b) => Some (String c a, b)
           | None => None
           end
  end.

Fixpoint has_space (s : string) : bool :=
  match s with
  | EmptyString => false
  | String c rest => Ascii.eqb c " "%char || has_space rest
  end.

(** Where the runs of decimal digits of Unicode 14 start, and how long
    each is: what [\d] of [re] matches. *)
Definition decimal_digit_runs : list (N * N) :=
  (120782, 50)%N ::
  map (λ start, (start, 10%N))
    [48; 1632; 1776; 1984; 2406; 2534; 2662; 2790; 2918; 3046; 3174; 3302;
     3430; 3558; 3664; 3792; 3872; 4160; 4240; 6112; 6160; 6470; 6608; 6784;
     6800; 6992; 7088; 7232; 7248; 42528; 43216; 43264; 43472; 43504; 43600;
     44016; 65296; 66720; 68912; 69734; 69872; 69942; 70096; 70384; 70736;
     70864; 71248; 71360; 71472; 71904; 72016; 72784; 73040; 73120; 92768;
     92864; 93008; 123200; 123632; 125264; 130032]%N.

Definition is_decimal (cp : N) : bool :=
  existsb (λ r, (fst r <=? cp)%N && (cp <? fst r + snd r)%N) decimal_digit_runs.

Fixpoint drop_final_line_feed (cps : list N) : list N :=
  match cps with
  | [] => []
  | [c] => if (c =? 10)%N then [] else [c]
  | c :: rest => c :: drop_final_line_feed rest
  end.

Fixpoint split_at_dot (cps : list N) : option (list N * list N) :=
  match cps with
  | [] => None
  | c :: rest =>
      if (c =? 46)%N then Some ([], rest)
      else match split_at_dot rest with
           | Some (a, b) => Some (c :: a, b)
           | None => None
           end
  end.

Definition all_decimal (cps : list N) : bool := forallb is_decimal cps.

(** A word that matches [^-\d+$|^-\d*\.\d+$]. *)
Definition negative_number_like (s : string) : bool :=
  match drop_final_line_feed (code_points_of s) with
  | dash :: body =>
      (dash =? 45)%N
      && ((match body with [] => false | _ => all_decimal body end)
          || match split_at_dot body with
             | Some (whole, fraction) =>
                 all_decimal whole
                 && match fraction with [] => false | _ => all_decimal fraction end
             | None => false
             end)
  | [] => false
  end.

(** The flags a word abbreviates. *)
Definition abbreviated (word : string) : list action :=
  snd <$> List.filter (λ o, String.prefix word (fst o)) long_options.

(** [_parse_optional]. *)
Definition read_word (word : string) : reading :=
  match word with
  | EmptyString => Argument
  | String c after =>
      if negb (Ascii.eqb c "-"%char) then Argument
      else if String.eqb word "-h" then Flag (Some Help) None true
      else
        match lookup_long word with
        | Some a => Flag (Some a) None false
        | None =>
            if String.eqb after "" then Argument
            else
              let joined :=
                match split_equals word with
                | Some (name, value) =>
                    if String.eqb name "-h"
                    then Some (Flag (Some Help) (Some value) true)
                    else option_map (λ a, Flag (Some a) (Some value) false)
                           (lookup_long name)
                | None => None
                end in
              let rest :=
                if negative_number_like word then Argument
                else if has_space word then Argument
                else Flag None None false in
              match joined with
              | Some r => r
              | None =>
                  match after with
                  | String "-"%char _ =>
                      let '(name, value) :=
                        match split_equals word with
                        | Some (name, value) => (name, Some value)
                        | None => (word, None)
                        end in
                      match abbreviated name with
                      | [] => rest
                      | [a] => Flag (Some a) value false
                      | _ => Ambiguous
                      end
                  | String "h"%char letters => Flag (Some Help) (Some letters) true
                  | _ => rest
                  end
              end
        end
  end.

(** The words of the command line as the parser reads them: the first
    [--] makes an argument of every word after it. *)
Fixpoint read_words (argv : list string) : list (reading * string) :=
  match argv with
  | [] => []
  | word :: rest =>
      if String.eqb word "--"
      then (Separator, word) :: map (pair Argument) rest
      else (read_word word, word) :: read_words rest
  end.

Definition store (a : action) (value : string) (ns : arguments) : arguments :=
  match a with
  | ApiKey => {| args_api_key := Some value; args_date := args_date ns;
                 args_model := args_model ns |}
  | Date => {| args_api_key := args_api_key ns; args_date := Some value;
               args_model := args_model ns |}
  | Model => {| args_api_key := args_api_key ns; args_date := args_date ns;
                args_model := Some value |}
  | Help => ns
  end.

Fixpoint only_h (s : string) : bool :=
  match s with
  | EmptyString => true
  | String c rest => Ascii.eqb c "h"%char && only_h rest
  end.

(** The words are taken from left to right.  A flag takes the value joined
    to it, or else the next word, which must be an argument; the help flag
    takes none.  [unrecognized] tells whether a word was left over. *)
Fixpoint take_words (words : list (reading * string)) (ns : arguments)
    (unrecognized : bool) : parse_result :=
  match words with
  | [] => if unrecognized then SystemExit 2 else Namespace ns
  | (Flag (Some Help) None _, _) :: _ => SystemExit 0
  | (Flag (Some Help) (Some letters) short, _) :: _ =>
      if short && negb (String.eqb letters "") && only_h letters
      then SystemExit 0 else SystemExit 2
  | (Flag (Some a) (Some value) _, _) :: rest =>
      take_words rest (store a value ns) unrecognized
  | (Flag (Some a) None _, _) :: rest =>
      match rest with
      | (Argument, value) :: rest' =>
          take_words rest' (store a value ns) unrecognized
      | _ => SystemExit 2
      end
  | (Ambiguous, _) :: _ => SystemExit 2
  | _ :: rest => take_words rest ns true
  end.

Definition parse_args (argv : list string) : parse_result :=
  let words := read_words argv in
  if existsb (λ r, match fst r with Ambiguous => true | _ => false end) words
  then SystemExit 2
  else take_words words
         {| args_api_key := None; args_date := None; args_model := None |}
         false.

End ArgRef.

(** ** Reading a trace *)

Definition is_network_call (e : effect) : option request :=
  match e with
  | HttpPost r => Some r
  | _ => None
  end.

(** The requests sent to the completion endpoint, oldest first. *)
Definition network_calls (t : list effect) : list request :=
  omap is_network_call t.



(** The world after more effects were recorded. *)
Definition record_effects (w : world) (es : list effect) : world :=
  {| fs := fs w; environ := environ w; eastern_now := eastern_now w;
     endpoint := endpoint w; trace := trace w ++ es |}.

Definition with_fs (w : world) (f : filesys) : world :=
  {| fs := f; environ := environ w; eastern_now := eastern_now w;
     endpoint := endpoint w; trace := trace w |}.

Definition with_environ (w : world) (e : gmap string string) : world :=
  {| fs := fs w; environ := e; eastern_now := eastern_now w;
     endpoint := endpoint w; trace := trace w |}.

Definition add_entry (f : filesys) (path : string) (n : node) : filesys :=
  {| read_only := read_only f; entries := <[path := n]> (entries f) |}.

(** The date key a call that starts in [w] works on: the caller's, or
    when the caller gives none (or an empty one) the day the clock shows
    in the fixed time zone at the next look. *)
Definition date_key (date_str : option string) (w : world) : string :=
  if truthy_str date_str then default "" date_str
  else strftime_Ymd (eastern_now w (looks w)).

(** What resolving the date key records: a look at the clock, when the
    caller gave no key. *)
Definition date_effects (date_str : option string) : list effect :=
  if truthy_str date_str then [] else [ClockRead].

(** The date key of the writer in a run that starts in [w]: the loader
    resolved its own key before, with a look at the clock of its own when
    the caller gave none, so the writer sees the clock at the look after
    that one. *)
Definition writer_key (date_str : option string) (w : world) : string :=
  date_key date_str (record_effects w (date_effects date_str)).

Definition articles_path (key : string) : string :=
  os_path_join ARTICLES_DIR (key ++ ".json").

Definition brief_path (key : string) : string :=
  os_path_join DAILYBRIEF_DIR (key ++ ".md").

Definition is_file (o : option node) : bool :=
  match o with
  | Some (File _) => true
  | _ => false
  end.

Definition is_dir (o : option node) : bool :=
  match o with
  | Some Dir => true
  | _ => false
  end.

Fixpoint has_slash (s : string) : bool :=
  match s with
  | EmptyString => false
  | String c rest => Ascii.eqb c "/"%char || has_slash rest
  end.

Definition is_prefix (p s : string) : Prop := ∃ rest, s = p ++ rest.
Definition is_suffix (p s : string) : Prop := ∃ front, s = front ++ p.
Definition is_infix (p s : string) : Prop := ∃ front rest, s = front ++ p ++ rest.

(** The values [len] accepts. *)
Definition sized (v : pyval) : bool :=
  match v with
  | PStr _ | PList _ | PDict _ => true
  | _ => false
  end.

(** The credential a run works with: the caller's, else the one of the
    environment when it is not empty. *)
Definition credential (api_key : option string) (w : world) : option string :=
  match api_key with
  | Some k => Some k
  | None =>
      if truthy_str (environ w !! "DEEPSEEK_API_KEY")
      then environ w !! "DEEPSEEK_API_KEY"
      else None
  end.

(** What resolving the credential records. *)
Definition credential_effects (api_key : option string) : list effect :=
  match api_key with
  | Some _ => []
  | None => [EnvGet "DEEPSEEK_API_KEY"]
  end.

(** The environment after the command-line layer wrote the flags it was
    given into it, and what that records. *)
Definition cli_environ (args : arguments) (env : gmap string string)
    : gmap string string :=
  let env1 :=
    if truthy_str (args_model args)
    then <["DEEPSEEK_MODEL" := default "" (args_model args)]> env
    else env in
  if truthy_str (args_api_key args)
  then <["DEEPSEEK_API_KEY" := default "" (args_api_key args)]> env1
  else env1.

Definition cli_effects (args : arguments) : list effect :=
  (if truthy_str (args_model args)
   then [EnvSet "DEEPSEEK_MODEL" (default "" (args_model args))]
   else [])
  ++ (if truthy_str (args_api_key args)
      then [EnvSet "DEEPSEEK_API_KEY" (default "" (args_api_key args))]
      else []).

Definition after_cli (args : arguments) (w : world) : world :=
  record_effects (with_environ w (cli_environ args (environ w))) (cli_effects args).

(** The last line [main] logs. *)
Definition outcome_line (success : bool) : effect :=
  if success then LogRecord INFO "简报生成成功"
  else LogRecord ERROR "简报生成失败".

(** What ensuring the output directory records on a file system that
    lets it work. *)
Definition ensure_effects (f : filesys) : list effect :=
  match entries f !! DAILYBRIEF_DIR with
  | Some _ => [PathExists DAILYBRIEF_DIR]
  | None =>
      [PathExists DAILYBRIEF_DIR; MakeDirs DAILYBRIEF_DIR;
       LogRecord INFO ("创建目录: " ++ DAILYBRIEF_DIR)]
  end.

(** The effects of the stages that follow the directory check: looking
    up the credential or the model, looking at the clock, opening a file,
    calling the endpoint. *)
Definition is_stage_effect (e : effect) : bool :=
  match e with
  | EnvGet _ | OpenRead _ | HttpPost _ | ClockRead | OpenWrite _ => true
  | _ => false
  end.

Section Requests.

Context (json_dumps : bool → option nat → pyval → string).

(** The text of the one message of a request. *)
Definition prompt_message (prompt : option string) (articles : option pyval)
    : string :=
  format_opt prompt ++ LF ++ LF ++ "输入数据:" ++ LF
    ++ json_dumps false (Some 2) (as_pyval articles).

(** The request [call_deepseek_api] sends in a given environment. *)
Definition summary_request (api_key : string) (prompt : option string)
    (articles : option pyval) (env : gmap string string) : request :=
  {| req_api_key := api_key;
     req_base_url := DEEPSEEK_API_URL;
     req_model := default DEFAULT_MODEL (env !! "SUMMARY_MODEL");
     req_messages := [("user", prompt_message prompt articles)];
     req_temperature_tenths := 6;
     req_max_tokens := 4096;
     req_stream := false |}.

End Requests.

(** From here on [++] appends lists; texts are appended with [+:+]. *)
Open Scope list_scope.

(** ** Computations and frames *)

(** A computation that never lets an exception out. *)
Definition returns {A} (m : M A) : Prop :=
  ∀ w, ∃ a, fst (m w) = Return a.

(** A computation whose every run relates the world before to the world
    after by [R]. *)
Definition respects {A} (R : relation world) (m : M A) : Prop :=
  ∀ w, R w (snd (m w)).

(** ** Three frames

    [no_calls]: nothing was sent to the endpoint.
    [model_from_env]: whatever was sent names the model the environment
    gives under [SUMMARY_MODEL], or the default one.
    [dir_kept]: an output directory that is there stays there, and the
    trace only grows. *)

Definition no_calls (w w' : world) : Prop :=
  network_calls (trace w') = network_calls (trace w).

Definition model_from_env (w w' : world) : Prop :=
  environ w' !! "SUMMARY_MODEL" = environ w !! "SUMMARY_MODEL" ∧
  ∃ new, network_calls (trace w') = network_calls (trace w) ++ new ∧
    Forall (λ r, req_model r = default DEFAULT_MODEL (environ w !! "SUMMARY_MODEL"))
      new.

Definition dir_kept (w w' : world) : Prop :=
  (entries (fs w) !! DAILYBRIEF_DIR = Some Dir →
   entries (fs w') !! DAILYBRIEF_DIR = Some Dir) ∧
  ∃ es, trace w' = trace w ++ es.

(** ** Sample worlds *)

Definition quoted (s : string) : string :=
  String JsonRef.DQ s +:+ String JsonRef.DQ "".

(** Two article records, the second with non-ASCII text. *)
Definition two_articles_text : string :=
  "[{" +:+ quoted "title" +:+ ": " +:+ quoted "Fed holds rates" +:+ "}, {"
    +:+ quoted "title" +:+ ": " +:+ quoted "芯片出口" +:+ "}]".

Definition two_articles : list pyval :=
  [PDict [("title", PStr "Fed holds rates")];
   PDict [("title", PStr "芯片出口")]].

(** An endpoint that answers every request with one choice. *)
Definition stub_endpoint (T : string) (r : request) : api_result :=
  ApiResponse [Some T].

Definition new_year : datetime := {| year := 2024; month := 1; day := 1 |}.

(** A working directory that holds the articles of one day, and whose
    articles file has the given text. *)
Definition world_with_articles (text : string) (env : gmap string string)
    (answer : string) : world :=
  {| fs := {| read_only := false;
              entries := <["articles/20240101.json" := File text]>
                           (<["articles" := Dir]> ∅) |};
     environ := env;
     eastern_now := λ _, new_year;
     endpoint := stub_endpoint answer;
     trace := [] |}.

(** The same on a file system that refuses modification. *)
Definition read_only_world : world :=
  {| fs := {| read_only := true;
              entries := <["articles/20240101.json" := File two_articles_text]>
                           (<["articles" := Dir]> ∅) |};
     environ := <["DEEPSEEK_API_KEY" := "sk-test"]> ∅;
     eastern_now := λ _, new_year;
     endpoint := stub_endpoint "# Brief";
     trace := [] |}.

(** Command lines: the words after the name of the program. *)
Definition no_flags : list string := [].

Definition flags_with_model : list string :=
  ["--api-key"; "sk-test"; "--date"; "20240101"; "--model"; "deepseek-reasoner"].

(** What the parser makes of them. *)
Definition no_flags_parsed : arguments :=
  {| args_api_key := None; args_date := None; args_model := None |}.

Definition flags_with_model_parsed : arguments :=
  {| args_api_key := Some "sk-test";
     args_date := Some "20240101";
     args_model := Some "deepseek-reasoner" |}.

(** A working directory where [dailybrief] is a regular file. *)
Definition world_with_file_in_the_way : world :=
  {| fs := {| read_only := false;
              entries := <["dailybrief" := File ""]>
                           (<["articles/20240101.json" := File two_articles_text]>
                              (<["articles" := Dir]> ∅)) |};
     environ := <["DEEPSEEK_API_KEY" := "sk-test"]> ∅;
     eastern_now := λ _, new_year;
     endpoint := stub_endpoint "# Brief";
     trace := [] |}.

(** A generated text with blanks at both ends and a final line feed. *)
Definition padded_brief : string := "  # Brief  " +:+ LF.

Definition key_in_env : gmap string string :=
  <["DEEPSEEK_API_KEY" := "sk-test"]> ∅.

(** The text of an article file that holds one object, not an array. *)
Definition one_object_text : string :=
  "{" +:+ quoted "title" +:+ ": " +:+ quoted "only" +:+ "}".

(** The flags of a run for a given day, with nothing else. *)
Definition flags_with_date : list string := ["--date"; "20240101"].

Definition flags_with_date_parsed : arguments :=
  {| args_api_key := None; args_date := Some "20240101"; args_model := None |}.

(** The world of the samples: two articles, a key in the environment and
    an endpoint that answers with the padded brief. *)
Definition sample_world : world :=
  world_with_articles two_articles_text key_in_env padded_brief.

(** A surrogate code point on its own, U+D83D, in generalized UTF-8: what
    the JSON escape of that number decodes to. *)
Definition lone_surrogate : string :=
  String (ascii_of_nat 237) (String (ascii_of_nat 160)
    (String (ascii_of_nat 189) EmptyString)).

(** A generated text that UTF-8 cannot encode. *)
Definition broken_brief : string := "# Brief " +:+ lone_surrogate.

(** The world of the samples after an earlier run: the brief of the day
    is there and holds an older text. *)
Definition world_with_old_brief (answer : string) : world :=
  {| fs := {| read_only := false;
              entries := <["dailybrief/20240101.md" := File "# Old brief"]>
                           (<["dailybrief" := Dir]>
                              (<["articles/20240101.json" := File two_articles_text]>
                                 (<["articles" := Dir]> ∅))) |};
     environ := key_in_env;
     eastern_now := λ _, new_year;
     endpoint := stub_endpoint answer;
     trace := [] |}.

Definition new_years_eve : datetime := {| year := 2023; month := 12; day := 31 |}.

(** A run that starts just before midnight: the first look at the clock
    sees the old year, every later one the new year.  The articles of the
    old year's last day are there. *)
Definition world_at_midnight : world :=
  {| fs := {| read_only := false;
              entries := <["articles/20231231.json" := File two_articles_text]>
                           (<["articles" := Dir]> ∅) |};
     environ := key_in_env;
     eastern_now := λ n, match n with O => new_years_eve | S _ => new_year end;
     endpoint := stub_endpoint padded_brief;
     trace := [] |}.

(** The entry point with the reference libraries. *)
Definition run_main (argv : list string) (w : world) : ending * world :=
  main JsonRef.loads JsonRef.dumps JsonRef.str_exn ArgRef.parse_args argv w.

(** ** Further readings of a run *)

(** The effects of a stage that only looks: the clock, a path, a file
    opened for reading, a log line. *)
Definition reads_only (e : effect) : bool :=
  match e with
  | ClockRead | PathExists _ | OpenRead _ | LogRecord _ _ => true
  | _ => false
  end.

(** The text [call_deepseek_api] returns for an answer of the endpoint:
    the content of the first choice, if there is one. *)
Definition first_choice (answer : api_result) : option string :=
  match answer with
  | ApiResponse (text :: _) => text
  | _ => None
  end.

(** A fourth frame: the clock was not looked at. *)
Definition no_clock (w w' : world) : Prop :=
  clock_reads (trace w') = clock_reads (trace w).

(** What every request of the program has, whatever the run. *)
Definition fixed_parameters (r : request) : Prop :=
  req_base_url r = DEEPSEEK_API_URL
  ∧ req_temperature_tenths r = 6
  ∧ req_max_tokens r = 4096
  ∧ req_stream r = false
  ∧ ∃ content, req_messages r = [("user", content)]
               ∧ is_prefix DEFAULT_PROMPT content.

(** What a run of [generate_daily_brief] records until it calls the
    client: the look for the credential, the effects of the loader on a
    file at [path] that holds [n] records, and the line that announces
    the call. *)
Definition effects_until_request (api_key date_str : option string)
    (path : string) (n : nat) : list effect :=
  credential_effects api_key ++ date_effects date_str
    ++ [PathExists path; OpenRead path;
        LogRecord INFO ("从 " +:+ path +:+ " 加载了 " +:+ str_nat n +:+ " 篇文章");
        LogRecord INFO "调用DeepSeek API..."].

(** What the client records when the endpoint answers a request with at
    least one choice. *)
Definition request_effects (r : request) : list effect :=
  [EnvGet "SUMMARY_MODEL"; HttpPost r; LogRecord INFO "成功生成摘要"].

(** The characters the serializer prints as they are when [ensure_ascii]
    is off: all but the quote, the backslash and the control characters;
    the bytes of a non-ASCII character are among them. *)
Definition unescaped (c : ascii) : bool :=
  (32 <=? nat_of_ascii c)%nat
  && negb (Ascii.eqb c JsonRef.DQ) && negb (Ascii.eqb c JsonRef.BACKSLASH).

Fixpoint all_unescaped (s : string) : bool :=
  match s with
  | EmptyString => true
  | String c rest => unescaped c && all_unescaped rest
  end.

(** The texts inside a value: the strings, and the keys of the objects. *)
Fixpoint texts_of (v : pyval) : list string :=
  match v with
  | PStr s => [s]
  | PList items => flat_map texts_of items
  | PDict fields => flat_map (λ kv, fst kv :: texts_of (snd kv)) fields
  | _ => []
  end.

(** * Properties *)

(** ** Reasoning about computations in [M] *)

Section Rules.

Context {A B : Type}.

Lemma returns_ret (a : A) : returns (ret a).
Proof. intros w. by exists a. Qed.

Lemma returns_bind (m : M A) (k : A → M B) :
  returns m → (∀ a, returns (k a)) → returns (bind m k).
Proof.
  intros Hm Hk w. unfold bind.
  destruct (Hm w) as [a Ha]. destruct (m w) as [r w1]. simpl in Ha. subst r.
  apply Hk.
Qed.

Lemma returns_try (body : M A) (handler : exn → M A) :
  (∀ e, returns (handler e)) → returns (try_except body handler).
Proof.
  intros Hh w. unfold try_except.
  destruct (body w) as [[a|e] w1]; [by exists a | apply Hh].
Qed.

Context (R : relation world) `{!PreOrder R}.

Lemma respects_ret (a : A) : respects R (ret a).
Proof. intros w. simpl. reflexivity. Qed.

Lemma respects_lift (o : outcome A) : respects R (lift o).
Proof. intros w. simpl. reflexivity. Qed.

Lemma respects_bind (m : M A) (k : A → M B) :
  respects R m → (∀ a, respects R (k a)) → respects R (bind m k).
Proof.
  intros Hm Hk w. unfold bind. specialize (Hm w).
  destruct (m w) as [[a|e] w1]; simpl in *; [|done].
  etrans; [exact Hm | apply Hk].
Qed.

Lemma respects_try (body : M A) (handler : exn → M A) :
  respects R body → (∀ e, respects R (handler e)) →
  respects R (try_except body handler).
Proof.
  intros Hb Hh w. unfold try_except. specialize (Hb w).
  destruct (body w) as [[a|e] w1]; simpl in *; [done|].
  etrans; [exact Hb | apply Hh].
Qed.

End Rules.

#[local] Instance no_calls_preorder : PreOrder no_calls.
Proof.
  split.
  - by intros w.
  - intros w1 w2 w3 H12 H23. unfold no_calls in *. congruence.
Qed.

#[local] Instance model_from_env_preorder : PreOrder model_from_env.
Proof.
  split.
  - intros w. split; [done|]. exists []. by rewrite app_nil_r.
  - intros w1 w2 w3 [He12 (n12 & Hn12 & Hf12)] [He23 (n23 & Hn23 & Hf23)].
    split; [congruence|]. exists (n12 ++ n23). split.
    + by rewrite Hn23, Hn12, <- app_assoc.
    + apply Forall_app. split; [done|]. by rewrite <- He12.
Qed.

#[local] Instance dir_kept_preorder : PreOrder dir_kept.
Proof.
  split.
  - intros w. split; [done|]. exists []. by rewrite app_nil_r.
  - intros w1 w2 w3 [Hd12 (es12 & Ht12)] [Hd23 (es23 & Ht23)].
    split; [auto|]. exists (es12 ++ es23).
    by rewrite Ht23, Ht12, <- app_assoc.
Qed.

Lemma network_calls_app (t1 t2 : list effect) :
  network_calls (t1 ++ t2) = network_calls t1 ++ network_calls t2.
Proof. unfold network_calls. apply omap_app. Qed.

(** *** The primitives against the frames *)

Ltac run_primitive :=
  intros w;
  cbv [logger_info logger_error os_path_exists os_makedirs read_text
       open_for_writing file_write os_environ_get os_environ_set
       chat_completions_create get_eastern_time
       bind emit get_world ret raise set_fs set_environ lift];
  cbn [fs environ eastern_now endpoint trace entries read_only fst snd];
  repeat case_match;
  cbn [fs environ eastern_now endpoint trace entries read_only fst snd].

Ltac solve_no_calls :=
  run_primitive; unfold no_calls; cbn [trace];
  rewrite ?network_calls_app; cbn; by rewrite ?app_nil_r.

Lemma no_calls_logger_info msg : respects no_calls (logger_info msg).
Proof. solve_no_calls. Qed.

Lemma no_calls_logger_error msg : respects no_calls (logger_error msg).
Proof. solve_no_calls. Qed.

Lemma no_calls_os_path_exists path : respects no_calls (os_path_exists path).
Proof. solve_no_calls. Qed.

Lemma no_calls_os_makedirs path : respects no_calls (os_makedirs path).
Proof. solve_no_calls. Qed.

Lemma no_calls_read_text path : respects no_calls (read_text path).
Proof. solve_no_calls. Qed.

Lemma no_calls_open_for_writing path : respects no_calls (open_for_writing path).
Proof. solve_no_calls. Qed.

Lemma no_calls_file_write path content :
  respects no_calls (file_write path content).
Proof. solve_no_calls. Qed.

Lemma no_calls_write_text path content : respects no_calls (write_text path content).
Proof.
  apply (respects_bind no_calls);
    [apply no_calls_open_for_writing | intros; apply no_calls_file_write].
Qed.

Lemma no_calls_os_environ_get key : respects no_calls (os_environ_get key).
Proof. solve_no_calls. Qed.

Lemma no_calls_os_environ_set key value :
  respects no_calls (os_environ_set key value).
Proof. solve_no_calls. Qed.

Lemma no_calls_get_eastern_time : respects no_calls get_eastern_time.
Proof. solve_no_calls. Qed.

Create HintDb no_calls_db.
#[local] Hint Resolve no_calls_logger_info no_calls_logger_error
  no_calls_os_path_exists no_calls_os_makedirs no_calls_read_text
  no_calls_write_text no_calls_os_environ_get no_calls_os_environ_set
  no_calls_get_eastern_time : no_calls_db.

(** Breaks a goal about a composed computation into goals about its
    parts, following binds, handlers and case distinctions, and closes the
    parts the hint database knows. *)
Ltac frame R db :=
  cbv zeta;
  repeat first
    [ apply (respects_ret R)
    | apply (respects_lift R)
    | solve [eauto with db]
    | apply (respects_bind R); [|intros]
    | apply (respects_try R); [|intros]
    | match goal with
      | |- respects _ (if ?b then _ else _) => destruct b
      | |- respects _ (match ?x with _ => _ end) => destruct x
      end ].

Ltac solve_model_from_env :=
  run_primitive; unfold model_from_env; cbn [environ trace];
  (split; [by rewrite ?lookup_insert_ne|]); exists [];
  rewrite ?network_calls_app; cbn;
  rewrite ?app_nil_r; by split; [|constructor].

Lemma model_logger_info msg : respects model_from_env (logger_info msg).
Proof. solve_model_from_env. Qed.

Lemma model_logger_error msg : respects model_from_env (logger_error msg).
Proof. solve_model_from_env. Qed.

Lemma model_os_path_exists path : respects model_from_env (os_path_exists path).
Proof. solve_model_from_env. Qed.

Lemma model_os_makedirs path : respects model_from_env (os_makedirs path).
Proof. solve_model_from_env. Qed.

Lemma model_read_text path : respects model_from_env (read_text path).
Proof. solve_model_from_env. Qed.

Lemma model_open_for_writing path :
  respects model_from_env (open_for_writing path).
Proof. solve_model_from_env. Qed.

Lemma model_file_write path content :
  respects model_from_env (file_write path content).
Proof. solve_model_from_env. Qed.

Lemma model_write_text path content :
  respects model_from_env (write_text path content).
Proof.
  apply (respects_bind model_from_env);
    [apply model_open_for_writing | intros; apply model_file_write].
Qed.

Lemma model_os_environ_get key : respects model_from_env (os_environ_get key).
Proof. solve_model_from_env. Qed.

Lemma model_os_environ_set key value :
  key ≠ "SUMMARY_MODEL" → respects model_from_env (os_environ_set key value).
Proof. intros Hk. solve_model_from_env. Qed.

Lemma model_get_eastern_time : respects model_from_env get_eastern_time.
Proof. solve_model_from_env. Qed.

Create HintDb model_db.
#[local] Hint Resolve model_logger_info model_logger_error model_os_path_exists
  model_os_makedirs model_read_text model_write_text model_os_environ_get
  model_get_eastern_time : model_db.

Ltac solve_dir_kept :=
  run_primitive; unfold dir_kept; cbn [fs entries trace];
  (split; [intros Hd; try done | eexists; rewrite <- ?app_assoc; reflexivity ]).

Lemma dir_logger_info msg : respects dir_kept (logger_info msg).
Proof. solve_dir_kept. Qed.

Lemma dir_logger_error msg : respects dir_kept (logger_error msg).
Proof. solve_dir_kept. Qed.

Lemma dir_os_path_exists path : respects dir_kept (os_path_exists path).
Proof. solve_dir_kept. Qed.

Lemma dir_os_makedirs path : respects dir_kept (os_makedirs path).
Proof.
  solve_dir_kept.
  destruct (decide (path = DAILYBRIEF_DIR)) as [->|Hne];
    [by rewrite lookup_insert_eq | by rewrite lookup_insert_ne].
Qed.

Lemma dir_read_text path : respects dir_kept (read_text path).
Proof. solve_dir_kept. Qed.

Lemma dir_open_for_writing path : respects dir_kept (open_for_writing path).
Proof.
  solve_dir_kept;
    (destruct (decide (path = DAILYBRIEF_DIR)) as [->|Hne];
     [congruence | by rewrite lookup_insert_ne]).
Qed.

(** The file that is written was just opened: it is no directory. *)
Lemma dir_write_text path content : respects dir_kept (write_text path content).
Proof.
  intros w. unfold write_text, bind.
  pose proof (dir_open_for_writing path w) as [Hkept (es & Hes)].
  destruct (open_for_writing path w) as [[[]|e] w1] eqn:Hopen;
    cbn [snd] in Hkept, Hes |- *; [|by split; [|exists es]].
  assert (entries (fs w1) !! path ≠ Some Dir ∨ path ≠ DAILYBRIEF_DIR) as Hfile.
  { revert Hopen.
    cbv [open_for_writing bind emit get_world ret raise set_fs].
    cbn [fs entries read_only trace].
    repeat case_match; try done; intros [= <-]; cbn [fs entries];
      left; by rewrite lookup_insert_eq. }
  cbv [file_write bind lift get_world set_fs].
  destruct (utf8_encode content) as [data|e]; cbn [snd fs entries trace];
    [|by split; [|exists es]].
  split; [|by exists es].
  intros Hd. specialize (Hkept Hd).
  destruct (decide (path = DAILYBRIEF_DIR)) as [->|Hne];
    [destruct Hfile; congruence | cbn; by rewrite lookup_insert_ne].
Qed.

Lemma dir_os_environ_get key : respects dir_kept (os_environ_get key).
Proof. solve_dir_kept. Qed.

Lemma dir_os_environ_set key value : respects dir_kept (os_environ_set key value).
Proof. solve_dir_kept. Qed.

Lemma dir_chat_completions_create r :
  respects dir_kept (chat_completions_create r).
Proof. solve_dir_kept. Qed.

Lemma dir_get_eastern_time : respects dir_kept get_eastern_time.
Proof. solve_dir_kept. Qed.

Create HintDb dir_db.
#[local] Hint Resolve dir_logger_info dir_logger_error dir_os_path_exists
  dir_os_makedirs dir_read_text dir_write_text dir_os_environ_get
  dir_os_environ_set dir_chat_completions_create dir_get_eastern_time : dir_db.

(** The primitives that cannot fail. *)

Lemma returns_logger_info msg : returns (logger_info msg).
Proof. intros w. by exists tt. Qed.

Lemma returns_logger_error msg : returns (logger_error msg).
Proof. intros w. by exists tt. Qed.

Lemma returns_os_environ_get key : returns (os_environ_get key).
Proof. intros w. by eexists. Qed.

Lemma returns_handler {A} (msg : string) (a : A) :
  returns (run logger_error msg; ret a).
Proof. intros w. by exists a. Qed.

Create HintDb returns_db.
#[local] Hint Resolve returns_logger_info returns_logger_error
  returns_os_environ_get : returns_db.

(** Shows that a composed computation lets no exception out. *)
Ltac total db :=
  cbv zeta;
  repeat first
    [ apply returns_ret
    | solve [eauto with db]
    | apply returns_bind; [|intros]
    | match goal with
      | |- returns (if ?b then _ else _) => destruct b
      | |- returns (match ?x with _ => _ end) => destruct x
      end ].

(** *** Paths *)

Lemma string_app_assoc (a b c : string) : a +:+ (b +:+ c) = (a +:+ b) +:+ c.
Proof.
  induction a as [|x a IH]; [done|].
  change (String x (a +:+ (b +:+ c)) = String x ((a +:+ b) +:+ c)).
  by f_equal.
Qed.

Lemma has_slash_app (a b : string) :
  has_slash (a +:+ b) = has_slash a || has_slash b.
Proof.
  induction a as [|c a IH]; simpl; [done|].
  rewrite IH. by destruct (Ascii.eqb c "/").
Qed.

Lemma after_last_slash_none (s : string) :
  has_slash s = false → after_last_slash s = None.
Proof.
  induction s as [|c s IH]; simpl; [done|].
  intros [Hc Hs]%orb_false_iff. by rewrite IH, Hc.
Qed.

Lemma starts_with_slash_app (a b : string) :
  has_slash a = false → starts_with_slash b = false →
  starts_with_slash (a +:+ b) = false.
Proof.
  destruct a as [|c a]; simpl; [done|].
  by intros [Hc _]%orb_false_iff _.
Qed.

Lemma substring_0_0 (s : string) : String.substring 0 0 s = "".
Proof. by destruct s. Qed.

Lemma brief_path_plain (key : string) :
  has_slash key = false →
  brief_path key = "dailybrief/" +:+ key +:+ ".md".
Proof.
  intros Hk. unfold brief_path, os_path_join.
  by rewrite starts_with_slash_app.
Qed.

Lemma dirname_brief_path (key : string) :
  has_slash key = false →
  os_path_dirname (brief_path key) = DAILYBRIEF_DIR.
Proof.
  intros Hk. rewrite brief_path_plain by done.
  unfold os_path_dirname. simpl.
  rewrite after_last_slash_none by (by rewrite !has_slash_app, Hk).
  by rewrite substring_0_0.
Qed.

Lemma brief_path_not_dir (key : string) :
  has_slash key = false → brief_path key ≠ DAILYBRIEF_DIR.
Proof. intros Hk. by rewrite brief_path_plain. Qed.

Lemma has_slash_string_of_uint (d : Decimal.uint) :
  has_slash (NilEmpty.string_of_uint d) = false.
Proof. induction d; simpl; done. Qed.

Lemma has_slash_str_nat (n : nat) : has_slash (str_nat n) = false.
Proof. apply has_slash_string_of_uint. Qed.

Lemma has_slash_strftime_Ymd (now : datetime) :
  has_slash (strftime_Ymd now) = false.
Proof.
  unfold strftime_Ymd, pad4, pad2.
  repeat case_match; rewrite ?has_slash_app; simpl;
    by rewrite ?has_slash_str_nat.
Qed.

Lemma has_slash_date_key (date_str : option string) (w : world) :
  has_slash (default "" date_str) = false →
  has_slash (date_key date_str w) = false.
Proof.
  intros Hd. unfold date_key.
  destruct (truthy_str date_str); [done | apply has_slash_strftime_Ymd].
Qed.

(** ** The primitives, run *)

Lemma network_calls_record (w : world) (es : list effect) :
  network_calls (trace (record_effects w es))
  = network_calls (trace w) ++ network_calls es.
Proof. apply network_calls_app. Qed.

Lemma fs_record_effects (w : world) (es : list effect) :
  fs (record_effects w es) = fs w.
Proof. done. Qed.

Lemma environ_record_effects (w : world) (es : list effect) :
  environ (record_effects w es) = environ w.
Proof. done. Qed.

Lemma endpoint_record_effects (w : world) (es : list effect) :
  endpoint (record_effects w es) = endpoint w.
Proof. done. Qed.

Lemma clock_reads_app (t1 t2 : list effect) :
  clock_reads (t1 ++ t2) = clock_reads t1 ++ clock_reads t2.
Proof. unfold clock_reads. apply omap_app. Qed.

(** Effects that are no look at the clock leave the date key of the next
    call as it was. *)
Lemma date_key_record_effects (date_str : option string) (w : world)
    (es : list effect) :
  clock_reads es = [] →
  date_key date_str (record_effects w es) = date_key date_str w.
Proof.
  intros Hes. unfold date_key, looks. cbn [record_effects trace eastern_now].
  by rewrite clock_reads_app, Hes, app_nil_r.
Qed.

Lemma clock_reads_credential_effects (api_key : option string) :
  clock_reads (credential_effects api_key) = [].
Proof. by destruct api_key. Qed.

Lemma date_key_after_credential (date_str api_key : option string) (w : world) :
  date_key date_str (record_effects w (credential_effects api_key))
  = date_key date_str w.
Proof. apply date_key_record_effects, clock_reads_credential_effects. Qed.


Lemma network_calls_cons (e : effect) (t : list effect) :
  network_calls (e :: t)
  = match e with HttpPost r => [r] | _ => [] end ++ network_calls t.
Proof. by destruct e. Qed.

Lemma network_calls_nil : network_calls [] = [].
Proof. done. Qed.

Lemma network_calls_date_effects (date_str : option string) :
  network_calls (date_effects date_str) = [].
Proof. unfold date_effects. by destruct (truthy_str date_str). Qed.

Lemma network_calls_credential_effects (api_key : option string) :
  network_calls (credential_effects api_key) = [].
Proof. by destruct api_key. Qed.

(** Counts the requests in a trace built from recorded effects. *)
Ltac count_calls :=
  repeat first
    [ rewrite network_calls_record
    | rewrite network_calls_app
    | rewrite network_calls_credential_effects
    | rewrite network_calls_date_effects
    | rewrite network_calls_cons
    | rewrite network_calls_nil ];
  cbv beta iota; cbn [app]; rewrite ?app_nil_r.


Lemma record_effects_app (w : world) (es1 es2 : list effect) :
  record_effects (record_effects w es1) es2 = record_effects w (es1 ++ es2).
Proof. unfold record_effects. cbn. by rewrite app_assoc. Qed.

Lemma record_effects_nil (w : world) : record_effects w [] = w.
Proof. destruct w. unfold record_effects. cbn. by rewrite app_nil_r. Qed.

Lemma ensure_dir_exists_run (directory : string) (w : world) :
  ensure_dir_exists directory w =
    match entries (fs w) !! directory with
    | Some _ => (Return tt, record_effects w [PathExists directory])
    | None =>
        if read_only (fs w) then
          (Raise (OSError EROFS directory),
           record_effects w [PathExists directory; MakeDirs directory])
        else
          (Return tt,
           record_effects (with_fs w (add_entry (fs w) directory Dir))
             [PathExists directory; MakeDirs directory;
              LogRecord INFO ("创建目录: " +:+ directory)])
    end.
Proof.
  unfold ensure_dir_exists, os_path_exists, os_makedirs, logger_info.
  unfold bind, emit, get_world, ret, raise, set_fs. cbn.
  unfold record_effects, with_fs, add_entry.
  destruct (entries (fs w) !! directory) eqn:He; cbn; [done|].
  rewrite He.
  destruct (read_only (fs w)); cbn; by rewrite <- ?app_assoc.
Qed.

Lemma write_text_run (path content : string) (w : world) :
  write_text path content w =
    match resolve_dir (fs w) (os_path_dirname path) with
    | Raise e =>
        (Raise (match e with OSError n _ => OSError n path | _ => e end),
         record_effects w [OpenWrite path])
    | Return _ =>
        if is_dir (entries (fs w) !! path) then
          (Raise (OSError EISDIR path), record_effects w [OpenWrite path])
        else if read_only (fs w) then
          (Raise (OSError EROFS path), record_effects w [OpenWrite path])
        else
          match utf8_encode content with
          | Return data =>
              (Return tt,
               record_effects (with_fs w (add_entry (fs w) path (File data)))
                 [OpenWrite path])
          | Raise e =>
              (Raise e,
               record_effects (with_fs w (add_entry (fs w) path (File "")))
                 [OpenWrite path])
          end
    end.
Proof.
  unfold write_text, open_for_writing, file_write.
  unfold bind, emit, get_world, ret, raise, set_fs, lift. cbn.
  unfold record_effects, with_fs, add_entry.
  destruct (resolve_dir (fs w) (os_path_dirname path)); [|done].
  destruct (entries (fs w) !! path) as [[|c]|]; cbn; try done;
    (destruct (read_only (fs w)); [done|]);
    destruct (utf8_encode content); cbn; by rewrite ?insert_insert_eq.
Qed.

Lemma utf8_encode_valid (s : string) :
  utf8_valid s = true → utf8_encode s = Return s.
Proof. unfold utf8_encode. by intros ->. Qed.


Lemma read_text_run (path : string) (w : world) :
  read_text path w =
    (match entries (fs w) !! path with
     | Some (File content) => Return content
     | Some Dir => Raise (OSError EISDIR path)
     | None => Raise (OSError ENOENT path)
     end, record_effects w [OpenRead path]).
Proof.
  unfold read_text, bind, emit, get_world, ret, raise. cbn.
  unfold record_effects.
  by destruct (entries (fs w) !! path) as [[|c]|].
Qed.

Lemma os_path_exists_run (path : string) (w : world) :
  os_path_exists path w =
    (Return (match entries (fs w) !! path with Some _ => true | None => false end),
     record_effects w [PathExists path]).
Proof. done. Qed.

Lemma os_environ_get_run (key : string) (w : world) :
  os_environ_get key w = (Return (environ w !! key), record_effects w [EnvGet key]).
Proof. done. Qed.

Lemma os_environ_set_run (key value : string) (w : world) :
  os_environ_set key value w =
    (Return tt,
     record_effects (with_environ w (<[key := value]> (environ w)))
       [EnvSet key value]).
Proof. done. Qed.

Lemma chat_completions_create_run (r : request) (w : world) :
  chat_completions_create r w =
    (match endpoint w r with
     | ApiRaise e => Raise e
     | ApiResponse choices => Return choices
     end, record_effects w [HttpPost r]).
Proof.
  unfold chat_completions_create, bind, emit, get_world, ret, raise. cbn.
  unfold record_effects. by destruct (endpoint w r).
Qed.

Lemma logger_info_run (msg : string) (w : world) :
  logger_info msg w = (Return tt, record_effects w [LogRecord INFO msg]).
Proof. done. Qed.

Lemma logger_error_run (msg : string) (w : world) :
  logger_error msg w = (Return tt, record_effects w [LogRecord ERROR msg]).
Proof. done. Qed.

(** Resolving the date key, as [load_articles] and [save_daily_brief]
    both start. *)
Lemma resolve_date_run (date_str : option string) (w : world) :
  (if negb (truthy_str date_str) then
     do now <- get_eastern_time;
     ret (strftime_Ymd now)
   else ret (default "" date_str)) w
  = (Return (date_key date_str w), record_effects w (date_effects date_str)).
Proof.
  unfold date_key, date_effects.
  destruct (truthy_str date_str); cbn; [|done].
  by rewrite record_effects_nil.
Qed.

(** ** The program's stages *)

Section Properties.

Context (json_load : string → outcome pyval).
Context (json_dumps : bool → option nat → pyval → string).
Context (str_exn : exn → string).
Context (parse_args : list string → parse_result).

Lemma save_daily_brief_run (content : string) (date_str : option string) (w : world) :
  save_daily_brief str_exn content date_str w =
    let path := brief_path (date_key date_str w) in
    let failed e w' :=
      (Return None,
       record_effects w' [LogRecord ERROR ("保存简报失败: " +:+ str_exn e)]) in
    match ensure_dir_exists DAILYBRIEF_DIR
            (record_effects w (date_effects date_str)) with
    | (Raise e, w1) => failed e w1
    | (Return _, w1) =>
        match write_text path content w1 with
        | (Raise e, w2) => failed e w2
        | (Return _, w2) =>
            (Return (Some path),
             record_effects w2 [LogRecord INFO ("简报已保存到 " +:+ path)])
        end
    end.
Proof.
  unfold save_daily_brief, try_except.
  unfold bind at 1. rewrite resolve_date_run.
  unfold bind at 1.
  destruct (ensure_dir_exists _ _) as [[[]|e] w1]; [|done].
  unfold bind at 1. fold (brief_path (date_key date_str w)).
  destruct (write_text _ _ _) as [[[]|e] w2]; done.
Qed.

(** The writer on a file system that lets it work: the directory is
    there afterwards; a text that can be encoded is in the file and the
    path is returned, a text that cannot leaves the file empty and [None]
    is returned. *)
Lemma save_daily_brief_writes (content : string) (date_str : option string)
    (w : world) :
  let path := brief_path (date_key date_str w) in
  has_slash (default "" date_str) = false →
  read_only (fs w) = false →
  is_file (entries (fs w) !! DAILYBRIEF_DIR) = false →
  is_dir (entries (fs w) !! path) = false →
  ∃ w', save_daily_brief str_exn content date_str w
          = (Return (if utf8_valid content then Some path else None), w')
        ∧ fs w' = {| read_only := false;
                     entries := <[path := File (if utf8_valid content
                                                then content else "")]>
                                  (<[DAILYBRIEF_DIR := Dir]> (entries (fs w))) |}.
Proof.
  intros path Hslash Hro Hdir Htarget.
  pose proof (has_slash_date_key date_str w Hslash) as Hkey.
  pose proof (dirname_brief_path _ Hkey) as Hdn.
  pose proof (brief_path_not_dir _ Hkey) as Hne.
  rewrite save_daily_brief_run. cbv zeta. fold path in Hdn, Hne |- *.
  rewrite ensure_dir_exists_run. cbn [record_effects fs].
  destruct (entries (fs w) !! DAILYBRIEF_DIR) as [[|c]|] eqn:Hd; [|done|].
  - rewrite write_text_run, Hdn. unfold resolve_dir, utf8_encode.
    cbn [record_effects fs String.eqb DAILYBRIEF_DIR Ascii.eqb].
    rewrite Hd, Htarget, Hro.
    destruct (utf8_valid content); (eexists; split; [reflexivity|]);
      cbn; unfold add_entry;
      by rewrite Hro, (insert_id (entries (fs w)) DAILYBRIEF_DIR Dir Hd).
  - rewrite Hro. rewrite write_text_run, Hdn. unfold resolve_dir, utf8_encode.
    cbn [record_effects with_fs add_entry fs entries read_only].
    rewrite lookup_insert_eq, lookup_insert_ne by done.
    rewrite Htarget, Hro.
    destruct (utf8_valid content); cbn [String.eqb DAILYBRIEF_DIR]; cbn;
      (eexists; split; [reflexivity|]); unfold add_entry; cbn; by rewrite Hro.
Qed.

Lemma save_daily_brief_ok (content : string) (date_str : option string) (w : world) :
  let path := brief_path (date_key date_str w) in
  utf8_valid content = true →
  has_slash (default "" date_str) = false →
  read_only (fs w) = false →
  is_file (entries (fs w) !! DAILYBRIEF_DIR) = false →
  is_dir (entries (fs w) !! path) = false →
  ∃ w', save_daily_brief str_exn content date_str w = (Return (Some path), w')
        ∧ fs w' = {| read_only := false;
                     entries := <[path := File content]>
                                  (<[DAILYBRIEF_DIR := Dir]> (entries (fs w))) |}.
Proof.
  intros path Hvalid Hslash Hro Hdir Htarget.
  destruct (save_daily_brief_writes content date_str w Hslash Hro Hdir Htarget)
    as (w' & Hrun & Hfs).
  fold path in Hrun, Hfs. rewrite Hvalid in Hrun, Hfs. by exists w'.
Qed.


(** C6, as amended. Writing twice for one date key leaves the second text
    only, when that text can be encoded: after a run that wrote [B1] for
    [key] (or failed to, for a [B1] that cannot be encoded), a later run
    writing [B2] for [key] (on the file system the first one left)
    returns the same path, the file holds exactly [B2], and the file
    system is the one a single write of [B2] gives: the entries of
    before, the directory, and one file for the key. *)
Theorem rerun_overwrites_brief (B1 B2 key : string) (w later : world) :
  key ≠ "" →
  has_slash key = false →
  utf8_valid B2 = true →
  read_only (fs w) = false →
  is_file (entries (fs w) !! DAILYBRIEF_DIR) = false →
  is_dir (entries (fs w) !! brief_path key) = false →
  fs later = fs (snd (save_daily_brief str_exn B1 (Some key) w)) →
  ∃ w2, save_daily_brief str_exn B2 (Some key) later
          = (Return (Some (brief_path key)), w2)
        ∧ entries (fs w2) !! brief_path key = Some (File B2)
        ∧ entries (fs w2)
            = <[brief_path key := File B2]>
                (<[DAILYBRIEF_DIR := Dir]> (entries (fs w)))
        ∧ fs w2 = fs (snd (save_daily_brief str_exn B2 (Some key) w)).
Proof.
  intros Hkey Hslash Hvalid Hro Hdir Htarget Hlater.
  assert (Htruthy : truthy_str (Some key) = true).
  { cbn. by destruct (String.eqb_spec key ""). }
  assert (Hdk : ∀ w0, date_key (Some key) w0 = key).
  { intros w0. unfold date_key. by rewrite Htruthy. }
  pose proof (brief_path_not_dir key Hslash) as Hne.
  destruct (save_daily_brief_writes B1 (Some key) w) as (w1 & Hrun1 & Hfs1);
    rewrite ?Hdk; try done.
  destruct (save_daily_brief_ok B2 (Some key) w) as (w2' & Hrun2' & Hfs2');
    rewrite ?Hdk; try done.
  rewrite Hdk in Hrun1, Hfs1, Hrun2', Hfs2'.
  rewrite Hrun1 in Hlater. cbn [snd] in Hlater. rewrite Hfs1 in Hlater.
  destruct (save_daily_brief_ok B2 (Some key) later) as (w2 & Hrun2 & Hfs2);
    rewrite ?Hdk, ?Hlater; cbn [read_only entries]; try done.
  { by rewrite lookup_insert_ne, lookup_insert_eq. }
  { by rewrite lookup_insert_eq. }
  rewrite Hdk in Hrun2, Hfs2. rewrite Hlater in Hfs2. cbn [entries] in Hfs2.
  set (left_by_first := if utf8_valid B1 then B1 else "") in *.
  assert (Hmap : <[brief_path key := File B2]>
                   (<[DAILYBRIEF_DIR := Dir]>
                      (<[brief_path key := File left_by_first]>
                         (<[DAILYBRIEF_DIR := Dir]> (entries (fs w)))))
                 = <[brief_path key := File B2]>
                     (<[DAILYBRIEF_DIR := Dir]> (entries (fs w)))).
  { apply map_eq. intros i.
    destruct (decide (i = brief_path key)) as [->|Hi1];
      [by rewrite !lookup_insert_eq|].
    rewrite !(lookup_insert_ne _ (brief_path key)) by done.
    destruct (decide (i = DAILYBRIEF_DIR)) as [->|Hi2];
      [by rewrite !lookup_insert_eq|].
    by rewrite !lookup_insert_ne by done. }
  exists w2. rewrite Hrun2, Hrun2'. cbn [snd]. rewrite Hfs2, Hfs2', Hmap. cbn.
  split; [done|]. split; [apply lookup_insert_eq|]. done.
Qed.

Lemma load_articles_run (date_str : option string) (w : world) :
  load_articles json_load str_exn date_str w =
    let path := articles_path (date_key date_str w) in
    let seen := date_effects date_str ++ [PathExists path] in
    let failed e :=
      (Return None,
       record_effects w
         (seen ++ [OpenRead path;
                   LogRecord ERROR ("加载文章失败: " +:+ str_exn e)])) in
    match entries (fs w) !! path with
    | None =>
        (Return None,
         record_effects w (seen ++ [LogRecord ERROR ("文件不存在: " +:+ path)]))
    | Some Dir => failed (OSError EISDIR path)
    | Some (File text) =>
        match json_load text with
        | Raise e => failed e
        | Return articles =>
            match len articles with
            | Raise e => failed e
            | Return n =>
                (Return (Some articles),
                 record_effects w
                   (seen ++ [OpenRead path;
                             LogRecord INFO
                               ("从 " +:+ path +:+ " 加载了 " +:+ str_nat n
                                  +:+ " 篇文章")]))
            end
        end
    end.
Proof.
  unfold load_articles, try_except.
  unfold bind at 1. rewrite resolve_date_run. cbv zeta.
  fold (articles_path (date_key date_str w)).
  set (path := articles_path (date_key date_str w)).
  unfold bind at 1. rewrite os_path_exists_run. cbn [record_effects fs].
  destruct (entries (fs w) !! path) as [[|text]|] eqn:Hp; cbn [negb].
  - unfold bind at 1. rewrite read_text_run. cbn [record_effects fs].
    rewrite Hp. cbn. by rewrite <- !app_assoc.
  - unfold bind at 1. rewrite read_text_run. cbn [record_effects fs].
    rewrite Hp. unfold bind at 1. unfold lift at 1.
    destruct (json_load text) as [articles|e].
    + unfold bind at 1. unfold lift at 1.
      destruct (len articles) as [n|e]; cbn; by rewrite <- !app_assoc.
    + cbn. by rewrite <- !app_assoc.
  - cbn. by rewrite <- !app_assoc.
Qed.

Lemma call_deepseek_api_run (api_key : string) (prompt : option string)
    (articles : option pyval) (w : world) :
  call_deepseek_api json_dumps str_exn (Some api_key) prompt articles w =
    let r := summary_request json_dumps api_key prompt articles (environ w) in
    let sent := [EnvGet "SUMMARY_MODEL"; HttpPost r] in
    match endpoint w r with
    | ApiRaise e =>
        (Return None,
         record_effects w
           (sent ++ [LogRecord ERROR ("调用DeepSeek API失败: " +:+ str_exn e)]))
    | ApiResponse [] =>
        (Return None,
         record_effects w
           (sent ++ [LogRecord ERROR "API响应中未找到有效的choices"]))
    | ApiResponse (text :: _) =>
        (Return text, record_effects w (sent ++ [LogRecord INFO "成功生成摘要"]))
    end.
Proof.
  unfold call_deepseek_api, try_except, request_summary.
  unfold bind at 1. rewrite os_environ_get_run.
  unfold bind at 1. rewrite chat_completions_create_run.
  cbn [record_effects environ endpoint].
  fold (prompt_message json_dumps prompt articles).
  fold (summary_request json_dumps api_key prompt articles (environ w)).
  destruct (endpoint w _) as [e|[|text choices]]; cbn;
    by rewrite <- !app_assoc.
Qed.

Lemma brief_from_articles_run (api_key prompt : string)
    (date_str : option string) (w : world) :
  brief_from_articles json_load json_dumps str_exn api_key prompt date_str w =
    match load_articles json_load str_exn date_str w with
    | (Raise e, w1) => (Raise e, w1)
    | (Return articles, w1) =>
        if truthy articles then
          match call_deepseek_api json_dumps str_exn (Some api_key) (Some prompt)
                  articles
                  (record_effects w1 [LogRecord INFO "调用DeepSeek API..."]) with
          | (Raise e, w2) => (Raise e, w2)
          | (Return summary, w2) =>
              if truthy_str summary then
                match save_daily_brief str_exn (default "" summary) date_str w2 with
                | (Raise e, w3) => (Raise e, w3)
                | (Return saved, w3) =>
                    (Return (match saved with Some _ => true | None => false end),
                     w3)
                end
              else (Return false, w2)
          end
        else (Return false, w1)
    end.
Proof.
  unfold brief_from_articles. unfold bind at 1.
  destruct (load_articles _ _ _ _) as [[articles|e] w1]; [|done].
  destruct (truthy articles); cbn [negb]; [|done].
  unfold bind at 1. rewrite logger_info_run. unfold bind at 1.
  destruct (call_deepseek_api _ _ _ _ _ _) as [[summary|e] w2]; [|done].
  destruct (truthy_str summary); cbn [negb]; [|done].
  unfold bind at 1.
  by destruct (save_daily_brief _ _ _ _) as [[saved|e] w3].
Qed.

Lemma generate_daily_brief_run (api_key : option string)
    (date_str : option string) (w : world) :
  generate_daily_brief json_load json_dumps str_exn api_key date_str w =
    match credential api_key w with
    | Some k =>
        brief_from_articles json_load json_dumps str_exn k DEFAULT_PROMPT date_str
          (record_effects w (credential_effects api_key))
    | None =>
        (Return false,
         record_effects w
           [EnvGet "DEEPSEEK_API_KEY"; LogRecord ERROR "需要DEEPSEEK_API_KEY"])
    end.
Proof.
  unfold generate_daily_brief, credential, credential_effects.
  destruct api_key as [k|]; [by rewrite record_effects_nil|].
  unfold bind at 1. rewrite os_environ_get_run.
  destruct (environ w !! "DEEPSEEK_API_KEY") as [k|] eqn:Hk;
    [destruct (truthy_str (Some k))|];
    cbn [negb default truthy_str]; try done.
  all: unfold bind, ret; rewrite logger_error_run;
    by rewrite record_effects_app.
Qed.

(** The stages against the frames. *)

Lemma no_calls_ensure_dir_exists directory :
  respects no_calls (ensure_dir_exists directory).
Proof. unfold ensure_dir_exists. frame no_calls no_calls_db. Qed.

Lemma no_calls_load_articles date_str :
  respects no_calls (load_articles json_load str_exn date_str).
Proof. unfold load_articles. frame no_calls no_calls_db. Qed.

Lemma no_calls_save_daily_brief content date_str :
  respects no_calls (save_daily_brief str_exn content date_str).
Proof.
  pose proof no_calls_ensure_dir_exists.
  unfold save_daily_brief. frame no_calls no_calls_db.
Qed.

(** C2. The loader returns the records of the file, in file order: when
    the article file of the date key holds a text that parses as the JSON
    array [recs], [load_articles] returns exactly the list [recs] (the
    same records in the same order, so as many as the file has), touches
    nothing but the log, and logs their number. *)
Theorem load_articles_returns_file_records (date_str : option string)
    (w : world) (text : string) (recs : list pyval) :
  let path := articles_path (date_key date_str w) in
  entries (fs w) !! path = Some (File text) →
  json_load text = Return (PList recs) →
  load_articles json_load str_exn date_str w
  = (Return (Some (PList recs)),
     record_effects w
       (date_effects date_str
          ++ [PathExists path; OpenRead path;
              LogRecord INFO
                ("从 " +:+ path +:+ " 加载了 " +:+ str_nat (length recs)
                   +:+ " 篇文章")])).
Proof.
  intros path Hfile Hparse.
  rewrite load_articles_run. cbv zeta. fold path.
  rewrite Hfile, Hparse. cbn [len].
  by rewrite <- app_assoc.
Qed.

(** C9. A file whose JSON value has no length is a load failure: when
    the article file parses to a value that is not sized ([null], a
    boolean, a number), [len] raises, the handler logs the exception and
    [load_articles] returns [None]. *)
Theorem load_articles_rejects_unsized_value (date_str : option string)
    (w : world) (text : string) (v : pyval) :
  let path := articles_path (date_key date_str w) in
  entries (fs w) !! path = Some (File text) →
  json_load text = Return v →
  sized v = false →
  ∃ e, len v = Raise e
     ∧ load_articles json_load str_exn date_str w
       = (Return None,
          record_effects w
            (date_effects date_str
               ++ [PathExists path; OpenRead path;
                   LogRecord ERROR ("加载文章失败: " +:+ str_exn e)])).
Proof.
  intros path Hfile Hparse Hsized.
  rewrite load_articles_run. cbv zeta. fold path.
  rewrite Hfile, Hparse.
  destruct v; try discriminate Hsized; cbn [len];
    (eexists; split; [reflexivity|]; by rewrite <- app_assoc).
Qed.

(** The command-line layer of [main]: the two optional writes to the
    environment, then the rest. *)
Lemma cli_run {A} (args : arguments) (k : M A) (w : world) :
  (run (if truthy_str (args_model args) then
          os_environ_set "DEEPSEEK_MODEL" (default "" (args_model args))
        else ret tt);
   run (if truthy_str (args_api_key args) then
          os_environ_set "DEEPSEEK_API_KEY" (default "" (args_api_key args))
        else ret tt);
   k) w
  = k (after_cli args w).
Proof.
  unfold after_cli, cli_environ, cli_effects, bind, ret.
  destruct (truthy_str (args_model args)), (truthy_str (args_api_key args));
    rewrite ?os_environ_set_run; f_equal; destruct w;
    unfold record_effects, with_environ; cbn;
    by rewrite <- ?app_assoc, ?app_nil_r.
Qed.

Lemma main_with_flags_run (args : arguments) (w : world) :
  main_with_flags json_load json_dumps str_exn args w =
    match ensure_dir_exists DAILYBRIEF_DIR (after_cli args w) with
    | (Raise e, w1) => (Raise e, w1)
    | (Return _, w1) =>
        match generate_daily_brief json_load json_dumps str_exn None
                (args_date args) w1 with
        | (Raise e, w2) => (Raise e, w2)
        | (Return success, w2) =>
            (Return tt, record_effects w2 [outcome_line success])
        end
    end.
Proof.
  unfold main_with_flags. rewrite cli_run.
  unfold bind at 1.
  destruct (ensure_dir_exists _ _) as [[[]|e] w1]; [|done].
  unfold bind at 1.
  by destruct (generate_daily_brief _ _ _ _ _ _) as [[[]|e] w2].
Qed.

(** [main] on a command line the parser accepts, and on one it leaves the
    program for. *)
Lemma main_parsed (argv : list string) (args : arguments) (w : world) :
  parse_args argv = Namespace args →
  main json_load json_dumps str_exn parse_args argv w =
    match main_with_flags json_load json_dumps str_exn args w with
    | (Return _, w') => (Returned, w')
    | (Raise e, w') => (Uncaught e, w')
    end.
Proof. unfold main. by intros ->. Qed.

Lemma main_exited (argv : list string) (status : nat) (w : world) :
  parse_args argv = SystemExit status →
  main json_load json_dumps str_exn parse_args argv w = (Exited status, w).
Proof. unfold main. by intros ->. Qed.

Lemma main_world (argv : list string) (w : world) :
  snd (main json_load json_dumps str_exn parse_args argv w) =
    match parse_args argv with
    | Namespace args =>
        snd (main_with_flags json_load json_dumps str_exn args w)
    | SystemExit _ => w
    end.
Proof.
  unfold main. destruct (parse_args argv) as [args|status]; [|done].
  by destruct (main_with_flags _ _ _ _ _) as [[[]|e] w'].
Qed.

(** The stages catch what they raise. *)

Lemma returns_load_articles date_str :
  returns (load_articles json_load str_exn date_str).
Proof. apply returns_try. intros e. apply returns_handler. Qed.

Lemma returns_call_deepseek_api api_key prompt articles :
  returns (call_deepseek_api json_dumps str_exn api_key prompt articles).
Proof. apply returns_try. intros e. apply returns_handler. Qed.

Lemma returns_save_daily_brief content date_str :
  returns (save_daily_brief str_exn content date_str).
Proof. apply returns_try. intros e. apply returns_handler. Qed.

Lemma returns_generate_daily_brief api_key date_str :
  returns (generate_daily_brief json_load json_dumps str_exn api_key date_str).
Proof.
  pose proof returns_load_articles.
  pose proof returns_call_deepseek_api.
  pose proof returns_save_daily_brief.
  unfold generate_daily_brief, brief_from_articles. total returns_db.
Qed.

(** The later stages keep the output directory. *)

Lemma dir_kept_ensure_dir_exists directory :
  respects dir_kept (ensure_dir_exists directory).
Proof. unfold ensure_dir_exists. frame dir_kept dir_db. Qed.

Lemma dir_kept_generate_daily_brief api_key date_str :
  respects dir_kept
    (generate_daily_brief json_load json_dumps str_exn api_key date_str).
Proof.
  pose proof dir_kept_ensure_dir_exists.
  unfold generate_daily_brief, brief_from_articles, load_articles,
    call_deepseek_api, request_summary, save_daily_brief.
  frame dir_kept dir_db.
Qed.

(** Whatever is sent names the model of [SUMMARY_MODEL] or the default. *)

Lemma model_call_deepseek_api api_key prompt articles :
  respects model_from_env
    (call_deepseek_api json_dumps str_exn (Some api_key) prompt articles).
Proof.
  intros w. rewrite call_deepseek_api_run. cbv zeta.
  set (r := summary_request json_dumps api_key prompt articles (environ w)).
  assert (Hr : req_model r = default DEFAULT_MODEL (environ w !! "SUMMARY_MODEL"))
    by done.
  destruct (endpoint w r) as [e|[|text choices]]; cbn [snd];
    (split; [done|]; exists [r]; rewrite network_calls_record;
     split; [done | by constructor]).
Qed.

Lemma model_ensure_dir_exists directory :
  respects model_from_env (ensure_dir_exists directory).
Proof. unfold ensure_dir_exists. frame model_from_env model_db. Qed.

Lemma model_generate_daily_brief api_key date_str :
  respects model_from_env
    (generate_daily_brief json_load json_dumps str_exn api_key date_str).
Proof.
  pose proof model_ensure_dir_exists.
  pose proof model_call_deepseek_api.
  unfold generate_daily_brief, brief_from_articles, load_articles,
    save_daily_brief.
  frame model_from_env model_db.
Qed.

Lemma model_main_with_flags args :
  respects model_from_env (main_with_flags json_load json_dumps str_exn args).
Proof.
  pose proof model_ensure_dir_exists.
  pose proof model_generate_daily_brief.
  assert (respects model_from_env
            (os_environ_set "DEEPSEEK_MODEL" (default "" (args_model args))))
    by (by apply model_os_environ_set).
  assert (respects model_from_env
            (os_environ_set "DEEPSEEK_API_KEY" (default "" (args_api_key args))))
    by (by apply model_os_environ_set).
  unfold main_with_flags. frame model_from_env model_db.
Qed.

Lemma sized_len (v : pyval) : sized v = true → ∃ n, len v = Return n.
Proof. destruct v; try discriminate; intros _; by eexists. Qed.

(** With a key in hand the client sends exactly one request. *)
Lemma call_deepseek_api_calls (api_key : string) (prompt : option string)
    (articles : option pyval) (w : world) :
  network_calls
    (trace (snd (call_deepseek_api json_dumps str_exn (Some api_key) prompt
                   articles w)))
  = network_calls (trace w)
      ++ [summary_request json_dumps api_key prompt articles (environ w)].
Proof.
  rewrite call_deepseek_api_run. cbv zeta.
  destruct (endpoint w _) as [e|[|text choices]]; cbn [snd];
    rewrite network_calls_record, network_calls_app, !network_calls_cons,
      network_calls_nil; by rewrite ?app_nil_r.
Qed.

(** Once the articles are loaded and worth sending: one request, then
    the stages that send nothing. *)
Lemma brief_from_articles_calls (api_key prompt : string)
    (date_str : option string) (w w1 : world) (articles : pyval) :
  load_articles json_load str_exn date_str w = (Return (Some articles), w1) →
  environ w1 = environ w →
  truthy_val articles = true →
  network_calls
    (trace (snd (brief_from_articles json_load json_dumps str_exn api_key prompt
                   date_str w)))
  = network_calls (trace w)
      ++ [summary_request json_dumps api_key (Some prompt) (Some articles)
            (environ w)].
Proof.
  intros Hload Henv Htruthy.
  pose proof (no_calls_load_articles date_str w) as Hl.
  rewrite Hload in Hl. unfold no_calls in Hl. cbn [snd] in Hl.
  rewrite brief_from_articles_run, Hload. cbn [truthy]. rewrite Htruthy.
  set (w1' := record_effects w1 [LogRecord INFO "调用DeepSeek API..."]).
  pose proof (call_deepseek_api_calls api_key (Some prompt) (Some articles) w1')
    as Hc.
  unfold w1' in Hc at 2 3.
  rewrite network_calls_record, network_calls_cons, network_calls_nil,
    environ_record_effects, app_nil_r, Hl, Henv in Hc.
  destruct (call_deepseek_api _ _ _ _ _ w1') as [[summary|e] w2];
    cbn [snd] in Hc |- *; [|done].
  destruct (truthy_str summary); [|done].
  pose proof (no_calls_save_daily_brief (default "" summary) date_str w2) as Hs.
  unfold no_calls in Hs.
  destruct (save_daily_brief _ _ _ w2) as [[saved|e] w3]; cbn [snd] in Hs |- *;
    by rewrite Hs.
Qed.

Lemma generate_daily_brief_sends (api_key : option string) (k : string)
    (date_str : option string) (w : world) (text : string) (articles : pyval) :
  credential api_key w = Some k →
  entries (fs w) !! articles_path (date_key date_str w) = Some (File text) →
  json_load text = Return articles →
  sized articles = true →
  truthy_val articles = true →
  network_calls
    (trace (snd (generate_daily_brief json_load json_dumps str_exn api_key
                   date_str w)))
  = network_calls (trace w)
      ++ [summary_request json_dumps k (Some DEFAULT_PROMPT) (Some articles)
            (environ w)].
Proof.
  intros Hcred Hfile Hparse Hsized Htruthy.
  destruct (sized_len articles Hsized) as [n Hlen].
  rewrite generate_daily_brief_run, Hcred.
  set (w0 := record_effects w (credential_effects api_key)).
  assert (∃ w1, load_articles json_load str_exn date_str w0
                  = (Return (Some articles), w1)
                ∧ environ w1 = environ w0) as (w1 & Hload & Henv).
  { rewrite load_articles_run. cbv zeta. unfold w0.
    rewrite date_key_after_credential, fs_record_effects.
    rewrite Hfile, Hparse, Hlen. by eexists. }
  rewrite (brief_from_articles_calls _ _ _ _ _ _ Hload Henv Htruthy).
  unfold w0.
  by rewrite network_calls_record, network_calls_credential_effects,
    app_nil_r, environ_record_effects.
Qed.

(** The one message of the request: the template, a fixed separator, and
    what the serializer, called with [ensure_ascii=False] and [indent=2],
    makes of the loaded value. *)
Lemma generate_daily_brief_message (api_key : option string) (k : string)
    (date_str : option string) (w : world) (text : string) (articles : pyval) :
  credential api_key w = Some k →
  entries (fs w) !! articles_path (date_key date_str w) = Some (File text) →
  json_load text = Return articles →
  sized articles = true →
  truthy_val articles = true →
  ∃ r content,
    network_calls
      (trace (snd (generate_daily_brief json_load json_dumps str_exn api_key
                     date_str w)))
    = network_calls (trace w) ++ [r]
    ∧ req_messages r = [("user", content)]
    ∧ content = DEFAULT_PROMPT +:+ LF +:+ LF +:+ "输入数据:" +:+ LF
                  +:+ json_dumps false (Some 2) articles
    ∧ is_prefix DEFAULT_PROMPT content
    ∧ is_suffix (json_dumps false (Some 2) articles) content.
Proof.
  intros Hcred Hfile Hparse Hsized Htruthy.
  eexists _, _. split; [by eapply generate_daily_brief_sends|].
  split; [reflexivity|]. split; [reflexivity|]. split.
  - by eexists.
  - exists (DEFAULT_PROMPT +:+ LF +:+ LF +:+ "输入数据:" +:+ LF).
    unfold prompt_message, format_opt, as_pyval.
    by rewrite <- !string_app_assoc.
Qed.

Lemma credential_after_cli (args : arguments) (w : world) :
  truthy_str (args_api_key args) = false →
  environ (after_cli args w) !! "DEEPSEEK_API_KEY"
  = environ w !! "DEEPSEEK_API_KEY".
Proof.
  intros Hk. unfold after_cli, cli_environ. rewrite environ_record_effects.
  cbn [with_environ environ]. rewrite Hk.
  destruct (truthy_str (args_model args)); [|done].
  by rewrite lookup_insert_ne.
Qed.

Lemma environ_ensure_dir_exists (directory : string) (w : world) :
  environ (snd (ensure_dir_exists directory w)) = environ w.
Proof.
  rewrite ensure_dir_exists_run.
  by destruct (entries (fs w) !! directory), (read_only (fs w)).
Qed.

Lemma no_calls_main_with_flags_without_key (args : arguments) (w : world) :
  truthy_str (environ w !! "DEEPSEEK_API_KEY") = false →
  truthy_str (args_api_key args) = false →
  network_calls
    (trace (snd (main_with_flags json_load json_dumps str_exn args w)))
  = network_calls (trace w)
  ∧ ∀ w', main_with_flags json_load json_dumps str_exn args w = (Return tt, w') →
          last (trace w') = Some (LogRecord ERROR "简报生成失败").
Proof.
  intros Henv Hflag. rewrite main_with_flags_run.
  pose proof (environ_ensure_dir_exists DAILYBRIEF_DIR (after_cli args w))
    as He.
  pose proof (no_calls_ensure_dir_exists DAILYBRIEF_DIR (after_cli args w))
    as Hn.
  unfold no_calls in Hn.
  assert (Hcli : network_calls (trace (after_cli args w))
                 = network_calls (trace w)).
  { unfold after_cli, cli_effects. rewrite network_calls_record.
    destruct (truthy_str (args_model args)), (truthy_str (args_api_key args));
      cbn; by rewrite app_nil_r. }
  destruct (ensure_dir_exists _ _) as [[[]|e] w1]; cbn [snd] in He, Hn |- *.
  + rewrite generate_daily_brief_run. unfold credential.
    rewrite He, credential_after_cli, Henv by done.
    cbn [snd]. split.
    * rewrite !network_calls_record, !network_calls_cons, network_calls_nil.
      by rewrite !app_nil_r, Hn, Hcli.
    * intros w' [= <-]. cbn [record_effects trace outcome_line].
      by rewrite last_snoc.
  + split; [by rewrite Hn, Hcli | done].
Qed.

(** C4. Without a credential the run fails and sends nothing: when the
    caller gives no key and the environment has none (or an empty one),
    [generate_daily_brief] returns [False] and [call_deepseek_api] returns
    [None], each after recording only the look at the environment and an
    error line; and [main], on a command line without [--api-key], sends
    no request and, when it returns, ends on the error line of a failed
    run. *)
Theorem absent_credential_fails_without_network_call (argv : list string)
    (date_str prompt : option string) (articles : option pyval) (w : world) :
  truthy_str (environ w !! "DEEPSEEK_API_KEY") = false →
  generate_daily_brief json_load json_dumps str_exn None date_str w
  = (Return false,
     record_effects w
       [EnvGet "DEEPSEEK_API_KEY"; LogRecord ERROR "需要DEEPSEEK_API_KEY"])
  ∧ call_deepseek_api json_dumps str_exn None prompt articles w
    = (Return None,
       record_effects w
         [EnvGet "DEEPSEEK_API_KEY";
          LogRecord ERROR "未设置DEEPSEEK_API_KEY环境变量"])
  ∧ ((∀ args, parse_args argv = Namespace args →
              truthy_str (args_api_key args) = false) →
     network_calls
       (trace (snd (main json_load json_dumps str_exn parse_args argv w)))
     = network_calls (trace w)
     ∧ ∀ w', main json_load json_dumps str_exn parse_args argv w
             = (Returned, w') →
             last (trace w') = Some (LogRecord ERROR "简报生成失败")).
Proof.
  intros Henv. split; [|split].
  - rewrite generate_daily_brief_run. unfold credential. by rewrite Henv.
  - unfold call_deepseek_api, try_except. unfold bind at 1.
    rewrite os_environ_get_run, Henv. cbn [negb].
    unfold bind, ret. rewrite logger_error_run.
    by rewrite record_effects_app.
  - intros Hflag. destruct (parse_args argv) as [args|status] eqn:Hparse.
    + destruct (no_calls_main_with_flags_without_key args w Henv
                  (Hflag args eq_refl)) as [Hcalls Hlast].
      rewrite (main_parsed argv args w Hparse).
      destruct (main_with_flags _ _ _ _ _) as [[[]|e] w1]; cbn [snd] in *;
        (split; [done|]); [|done].
      intros w' [= <-]. by apply Hlast.
    + rewrite (main_exited argv status w Hparse). by split.
Qed.

(** C8. An empty article file aborts the run like a missing one: when the
    article file parses to the empty array, [load_articles] succeeds and
    returns the empty list, yet [generate_daily_brief] returns [False]
    and sends nothing; the same result as when the file is missing. *)
Theorem empty_collection_aborts_run (api_key : option string)
    (date_str : option string) (w : world) (text : string) :
  entries (fs w) !! articles_path (date_key date_str w) = Some (File text) →
  json_load text = Return (PList []) →
  (∃ w1, load_articles json_load str_exn date_str w
         = (Return (Some (PList [])), w1))
  ∧ (∃ w', generate_daily_brief json_load json_dumps str_exn api_key date_str w
           = (Return false, w')
         ∧ network_calls (trace w') = network_calls (trace w))
  ∧ (∀ w0, entries (fs w0) !! articles_path (date_key date_str w0) = None →
       ∃ w0', generate_daily_brief json_load json_dumps str_exn api_key
                date_str w0 = (Return false, w0')
            ∧ network_calls (trace w0') = network_calls (trace w0)).
Proof.
  intros Hfile Hparse. split; [|split].
  - rewrite load_articles_run. cbv zeta. rewrite Hfile, Hparse. by eexists.
  - rewrite generate_daily_brief_run.
    destruct (credential api_key w) as [k|].
    + rewrite brief_from_articles_run, load_articles_run. cbv zeta.
      rewrite date_key_after_credential, fs_record_effects, Hfile, Hparse.
      cbn [len truthy truthy_val]. eexists. split; [reflexivity|].
      by count_calls.
    + eexists. split; [reflexivity|].
      by count_calls.
  - intros w0 Hmissing. rewrite generate_daily_brief_run.
    destruct (credential api_key w0) as [k|].
    + rewrite brief_from_articles_run, load_articles_run. cbv zeta.
      rewrite date_key_after_credential, fs_record_effects, Hmissing.
      cbn [truthy]. eexists. split; [reflexivity|].
      by count_calls.
    + eexists. split; [reflexivity|].
      by count_calls.
Qed.

(** X18. The model a request names never comes from [--model]: it is the
    value of [SUMMARY_MODEL] in the environment [main] starts in, or the
    default. *)
Lemma request_model_ignores_model_flag (argv : list string) (w : world) :
  ∃ new,
    network_calls
      (trace (snd (main json_load json_dumps str_exn parse_args argv w)))
    = network_calls (trace w) ++ new
    ∧ Forall (λ r, req_model r
                   = default DEFAULT_MODEL (environ w !! "SUMMARY_MODEL")) new.
Proof.
  rewrite main_world. destruct (parse_args argv) as [args|status].
  - by destruct (model_main_with_flags args w) as [_ H].
  - exists []. by rewrite app_nil_r.
Qed.



(** C10, as amended. On a command line the parser accepts, when the
    output directory is there, or is missing on a file system that lets
    it be created, [main] first writes the flags to the environment and
    checks (and, if missing, creates) the directory: none of these effects
    is a credential lookup, a file access of a stage or a network call,
    all of which come later; the directory then exists, and it still does
    when [main] is over, whatever the later stages did.  A directory that
    was there is not created again and the file system is as it was at
    that point.  When the parser leaves through [sys.exit] nothing is
    done: the file system is as it was. *)
Theorem main_ensures_output_directory_first (argv : list string) (w : world) :
  (∀ args, parse_args argv = Namespace args →
     entries (fs w) !! DAILYBRIEF_DIR = Some Dir
     ∨ (entries (fs w) !! DAILYBRIEF_DIR = None ∧ read_only (fs w) = false) →
     ∃ w1 later,
       ensure_dir_exists DAILYBRIEF_DIR (after_cli args w) = (Return tt, w1)
       ∧ trace w1 = trace w ++ cli_effects args ++ ensure_effects (fs w)
       ∧ Forall (λ e, is_stage_effect e = false)
           (cli_effects args ++ ensure_effects (fs w))
       ∧ entries (fs w1) !! DAILYBRIEF_DIR = Some Dir
       ∧ (entries (fs w) !! DAILYBRIEF_DIR = Some Dir → fs w1 = fs w)
       ∧ trace (snd (main json_load json_dumps str_exn parse_args argv w))
         = trace w1 ++ later
       ∧ entries (fs (snd (main json_load json_dumps str_exn parse_args argv w)))
           !! DAILYBRIEF_DIR = Some Dir)
  ∧ (∀ status, parse_args argv = SystemExit status →
       snd (main json_load json_dumps str_exn parse_args argv w) = w).
Proof.
  split.
  2:{ intros status Hparse. by rewrite (main_exited argv status w Hparse). }
  intros args Hparse Hdir.
  assert (Hquiet : Forall (λ e, is_stage_effect e = false)
                     (cli_effects args ++ ensure_effects (fs w))).
  { apply Forall_app. split.
    - unfold cli_effects.
      destruct (truthy_str (args_model args)), (truthy_str (args_api_key args));
        by repeat constructor.
    - unfold ensure_effects.
      destruct (entries (fs w) !! DAILYBRIEF_DIR); by repeat constructor. }
  assert (∃ w1, ensure_dir_exists DAILYBRIEF_DIR (after_cli args w)
                = (Return tt, w1)
              ∧ trace w1 = trace w ++ cli_effects args ++ ensure_effects (fs w)
              ∧ entries (fs w1) !! DAILYBRIEF_DIR = Some Dir
              ∧ (entries (fs w) !! DAILYBRIEF_DIR = Some Dir → fs w1 = fs w))
    as (w1 & Hrun & Htrace & Hthere & Hsame).
  { rewrite ensure_dir_exists_run. unfold ensure_effects.
    change (fs (after_cli args w)) with (fs w).
    destruct Hdir as [Hd|[Hd Hro]]; rewrite Hd, ?Hro.
    - eexists. split; [reflexivity|]. cbn. by rewrite <- app_assoc.
    - eexists. split; [reflexivity|]. cbn. rewrite <- app_assoc.
      split; [done|]. split; [apply lookup_insert_eq | done]. }
  pose proof (dir_kept_generate_daily_brief None (args_date args) w1)
    as [Hkept (es & Hes)].
  exists w1. rewrite main_world, Hparse, main_with_flags_run, Hrun.
  destruct (generate_daily_brief _ _ _ _ _ w1) as [[success|e] w2];
    cbn [snd] in Hkept, Hes |- *.
  - exists (es ++ [outcome_line success]).
    cbn [record_effects trace fs]. rewrite Hes, <- app_assoc. auto 10.
  - exists es. auto 10.
Qed.

Lemma clock_reads_cons (e : effect) (t : list effect) :
  clock_reads (e :: t)
  = match e with ClockRead => [()] | _ => [] end ++ clock_reads t.
Proof. by destruct e. Qed.

(** Two worlds that differ in effects with the same looks at the clock
    give the next call the same date key. *)
Lemma date_key_same_looks (date_str : option string) (w : world)
    (es es' : list effect) :
  clock_reads es = clock_reads es' →
  date_key date_str (record_effects w es)
  = date_key date_str (record_effects w es').
Proof.
  intros Hes. unfold date_key, looks. cbn [record_effects trace eastern_now].
  by rewrite !clock_reads_app, Hes.
Qed.

Lemma clock_reads_until_request (api_key date_str : option string)
    (path : string) (n : nat) (r : request) :
  clock_reads (effects_until_request api_key date_str path n ++ request_effects r)
  = clock_reads (date_effects date_str).
Proof.
  unfold effects_until_request, request_effects.
  rewrite !clock_reads_app, clock_reads_credential_effects.
  cbn. by rewrite !app_nil_r.
Qed.

(** A run that gets an answer: with a credential, articles that load and
    are worth sending, and an answer of the endpoint with at least one
    choice, the client returns the content of the first choice, and the
    run goes on with the writer exactly when that content is a non-empty
    text. *)
Lemma generate_daily_brief_answered (api_key : option string) (k : string)
    (date_str : option string) (w : world) (text : string) (articles : pyval)
    (n : nat) (first : option string) (others : list (option string)) :
  let r := summary_request json_dumps k (Some DEFAULT_PROMPT) (Some articles)
             (environ w) in
  let w1 := record_effects w
              (effects_until_request api_key date_str
                 (articles_path (date_key date_str w)) n) in
  let w2 := record_effects w1 (request_effects r) in
  credential api_key w = Some k →
  entries (fs w) !! articles_path (date_key date_str w) = Some (File text) →
  json_load text = Return articles →
  len articles = Return n →
  truthy_val articles = true →
  endpoint w r = ApiResponse (first :: others) →
  call_deepseek_api json_dumps str_exn (Some k) (Some DEFAULT_PROMPT)
    (Some articles) w1 = (Return first, w2)
  ∧ generate_daily_brief json_load json_dumps str_exn api_key date_str w =
      if truthy_str first then
        match save_daily_brief str_exn (default "" first) date_str w2 with
        | (Return saved, w3) =>
            (Return (match saved with Some _ => true | None => false end), w3)
        | (Raise e, w3) => (Raise e, w3)
        end
      else (Return false, w2).
Proof.
  intros r w1 w2 Hcred Hfile Hparse Hlen Htruthy Hanswer.
  assert (Hcall : call_deepseek_api json_dumps str_exn (Some k)
                    (Some DEFAULT_PROMPT) (Some articles) w1
                  = (Return first, w2)).
  { rewrite call_deepseek_api_run. cbv zeta. unfold w1.
    rewrite environ_record_effects, endpoint_record_effects.
    fold r. by rewrite Hanswer. }
  split; [exact Hcall|].
  rewrite generate_daily_brief_run, Hcred.
  rewrite brief_from_articles_run, load_articles_run. cbv zeta.
  rewrite date_key_after_credential, fs_record_effects, Hfile, Hparse, Hlen.
  cbn [truthy]. rewrite Htruthy.
  rewrite !record_effects_app, <- !app_assoc.
  change (record_effects w _) with w1 at 1.
  by rewrite Hcall.
Qed.

Lemma fs_until_answer (api_key date_str : option string) (path : string)
    (n : nat) (r : request) (w : world) :
  fs (record_effects
        (record_effects w (effects_until_request api_key date_str path n))
        (request_effects r)) = fs w.
Proof. done. Qed.

Lemma date_key_until_answer (api_key date_str : option string) (path : string)
    (n : nat) (r : request) (w : world) :
  date_key date_str
    (record_effects
       (record_effects w (effects_until_request api_key date_str path n))
       (request_effects r))
  = writer_key date_str w.
Proof.
  rewrite record_effects_app. unfold writer_key.
  apply date_key_same_looks, clock_reads_until_request.
Qed.

(** C1, as amended. The text of the client reaches the file as it is: when
    the run has a credential, the articles load and are worth sending,
    and the first choice of the endpoint's answer is a non-empty text [T]
    that UTF-8 can encode, the client returns [T], the orchestrator hands
    it to [save_daily_brief], which on a file system that lets it work
    returns the path of the brief of the writer's date key, and that file
    holds exactly [T]; [generate_daily_brief] returns [True]. *)
Theorem brief_file_holds_generated_text (api_key : option string)
    (k : string) (date_str : option string) (w : world) (text : string)
    (articles : pyval) (T : string) (others : list (option string)) :
  let r := summary_request json_dumps k (Some DEFAULT_PROMPT) (Some articles)
             (environ w) in
  let path := brief_path (writer_key date_str w) in
  credential api_key w = Some k →
  entries (fs w) !! articles_path (date_key date_str w) = Some (File text) →
  json_load text = Return articles →
  sized articles = true →
  truthy_val articles = true →
  endpoint w r = ApiResponse (Some T :: others) →
  T ≠ "" →
  utf8_valid T = true →
  has_slash (default "" date_str) = false →
  read_only (fs w) = false →
  is_file (entries (fs w) !! DAILYBRIEF_DIR) = false →
  is_dir (entries (fs w) !! path) = false →
  ∃ n w',
    let w1 := record_effects w
                (effects_until_request api_key date_str
                   (articles_path (date_key date_str w)) n) in
    let w2 := record_effects w1 (request_effects r) in
    len articles = Return n
    ∧ call_deepseek_api json_dumps str_exn (Some k) (Some DEFAULT_PROMPT)
        (Some articles) w1 = (Return (Some T), w2)
    ∧ save_daily_brief str_exn T date_str w2 = (Return (Some path), w')
    ∧ generate_daily_brief json_load json_dumps str_exn api_key date_str w
      = (Return true, w')
    ∧ entries (fs w') !! path = Some (File T).
Proof.
  intros r path Hcred Hfile Hparse Hsized Htruthy Hanswer HT Hvalid Hslash Hro
    Hdir Htarget.
  destruct (sized_len articles Hsized) as [n Hlen].
  destruct (generate_daily_brief_answered api_key k date_str w text articles n
              (Some T) others Hcred Hfile Hparse Hlen Htruthy Hanswer)
    as [Hcall Hrun].
  fold r in Hcall, Hrun.
  assert (truthy_str (Some T) = true) as Htext.
  { cbn. by destruct (String.eqb_spec T ""). }
  rewrite Htext in Hrun. change (default "" (Some T)) with T in Hrun.
  match type of Hrun with
  | context [save_daily_brief _ _ _ ?w2] =>
      destruct (save_daily_brief_ok T date_str w2) as (w' & Hsave & Hfs);
        rewrite ?fs_until_answer, ?date_key_until_answer; try done;
        rewrite date_key_until_answer in Hsave, Hfs
  end.
  fold path in Hsave, Hfs. rewrite Hsave in Hrun.
  exists n, w'. cbv zeta. repeat split; try done.
  rewrite Hfs. apply lookup_insert_eq.
Qed.

(** X16. Success means a text that could be written: with a credential,
    articles that load and are worth sending, an answer whose first
    choice is a non-empty text [T] and a file system that lets the writer
    work, [generate_daily_brief] returns [True] exactly when UTF-8 can
    encode [T]; the brief file of the writer's date key then holds [T],
    and otherwise it is left empty, whatever it held before. *)
Lemma generate_daily_brief_writes_choice_text (api_key : option string)
    (k : string) (date_str : option string) (w : world) (text : string)
    (articles : pyval) (T : string) (others : list (option string)) :
  let path := brief_path (writer_key date_str w) in
  credential api_key w = Some k →
  entries (fs w) !! articles_path (date_key date_str w) = Some (File text) →
  json_load text = Return articles →
  sized articles = true →
  truthy_val articles = true →
  endpoint w (summary_request json_dumps k (Some DEFAULT_PROMPT) (Some articles)
                (environ w)) = ApiResponse (Some T :: others) →
  T ≠ "" →
  has_slash (default "" date_str) = false →
  read_only (fs w) = false →
  is_file (entries (fs w) !! DAILYBRIEF_DIR) = false →
  is_dir (entries (fs w) !! path) = false →
  ∃ w', generate_daily_brief json_load json_dumps str_exn api_key date_str w
        = (Return (utf8_valid T), w')
      ∧ entries (fs w') !! path
        = Some (File (if utf8_valid T then T else "")).
Proof.
  intros path Hcred Hfile Hparse Hsized Htruthy Hanswer HT Hslash Hro Hdir
    Htarget.
  destruct (sized_len articles Hsized) as [n Hlen].
  destruct (generate_daily_brief_answered api_key k date_str w text articles n
              (Some T) others Hcred Hfile Hparse Hlen Htruthy Hanswer)
    as [_ Hrun].
  assert (truthy_str (Some T) = true) as Htext.
  { cbn. by destruct (String.eqb_spec T ""). }
  rewrite Htext in Hrun. change (default "" (Some T)) with T in Hrun.
  match type of Hrun with
  | context [save_daily_brief _ _ _ ?w2] =>
      destruct (save_daily_brief_writes T date_str w2) as (w' & Hsave & Hfs);
        rewrite ?fs_until_answer, ?date_key_until_answer; try done;
        rewrite date_key_until_answer in Hsave, Hfs
  end.
  fold path in Hsave, Hfs. rewrite Hsave in Hrun.
  exists w'. split; [by destruct (utf8_valid T)|].
  rewrite Hfs. apply lookup_insert_eq.
Qed.

(** X17. The orchestrator hands only a non-empty text to the writer: when
    the first choice of the answer is empty or has no content, the run
    has sent its request, and it stops there: it returns [False] after
    the client's last line, the writer is not called, and the file system
    is as it was. *)
Lemma empty_choice_text_is_not_written (api_key : option string)
    (k : string) (date_str : option string) (w : world) (text : string)
    (articles : pyval) (first : option string) (others : list (option string)) :
  let r := summary_request json_dumps k (Some DEFAULT_PROMPT) (Some articles)
             (environ w) in
  credential api_key w = Some k →
  entries (fs w) !! articles_path (date_key date_str w) = Some (File text) →
  json_load text = Return articles →
  sized articles = true →
  truthy_val articles = true →
  endpoint w r = ApiResponse (first :: others) →
  truthy_str first = false →
  ∃ n, len articles = Return n
     ∧ generate_daily_brief json_load json_dumps str_exn api_key date_str w
       = (Return false,
          record_effects w
            (effects_until_request api_key date_str
               (articles_path (date_key date_str w)) n
             ++ [EnvGet "SUMMARY_MODEL"; HttpPost r;
                 LogRecord INFO "成功生成摘要"])).
Proof.
  intros r Hcred Hfile Hparse Hsized Htruthy Hanswer Hfirst.
  destruct (sized_len articles Hsized) as [n Hlen]. exists n.
  split; [done|].
  destruct (generate_daily_brief_answered api_key k date_str w text articles n
              first others Hcred Hfile Hparse Hlen Htruthy Hanswer)
    as [_ Hrun].
  by rewrite Hrun, Hfirst, record_effects_app.
Qed.

(** ** More on the stages *)

(** X1. [ensure_dir_exists] is idempotent: once it has returned, the path
    exists, an entry that was already there (a directory or a file) is
    what it was, and a second call only checks. *)
Theorem ensure_dir_exists_twice (directory : string) (w w1 : world) :
  ensure_dir_exists directory w = (Return tt, w1) →
  is_Some (entries (fs w1) !! directory)
  ∧ (is_Some (entries (fs w) !! directory) → fs w1 = fs w)
  ∧ ensure_dir_exists directory w1
    = (Return tt, record_effects w1 [PathExists directory]).
Proof.
  rewrite !ensure_dir_exists_run.
  destruct (entries (fs w) !! directory) as [n|] eqn:Hd.
  - intros [= <-]. rewrite fs_record_effects, Hd. by eauto.
  - destruct (read_only (fs w)); [done|]. intros [= <-].
    cbn [record_effects with_fs add_entry fs entries].
    rewrite lookup_insert_eq. split; [by eexists|]. split; [|done].
    by intros [n Hn].
Qed.

(** X2. A missing article file: [load_articles] returns [None], logs the
    path it did not find, and opens nothing. *)
Theorem load_articles_missing_file (date_str : option string) (w : world) :
  let path := articles_path (date_key date_str w) in
  entries (fs w) !! path = None →
  load_articles json_load str_exn date_str w
  = (Return None,
     record_effects w
       (date_effects date_str
          ++ [PathExists path; LogRecord ERROR ("文件不存在: " +:+ path)])).
Proof.
  intros path Hmissing. rewrite load_articles_run. cbv zeta. fold path.
  by rewrite Hmissing, <- app_assoc.
Qed.

(** X3. An article file that cannot be read or parsed: when [json.load]
    raises on the text of the file, or the path is a directory,
    [load_articles] returns [None] and logs the exception. *)
Theorem load_articles_unreadable_file (date_str : option string) (w : world) :
  let path := articles_path (date_key date_str w) in
  (entries (fs w) !! path = Some Dir
   ∨ ∃ text e, entries (fs w) !! path = Some (File text)
               ∧ json_load text = Raise e) →
  ∃ e, load_articles json_load str_exn date_str w
       = (Return None,
          record_effects w
            (date_effects date_str
               ++ [PathExists path; OpenRead path;
                   LogRecord ERROR ("加载文章失败: " +:+ str_exn e)])).
Proof.
  intros path Hbad. rewrite load_articles_run. cbv zeta. fold path.
  destruct Hbad as [Hdir|(text & e & Hfile & Hparse)].
  - rewrite Hdir. eexists. by rewrite <- app_assoc.
  - rewrite Hfile, Hparse. exists e. by rewrite <- app_assoc.
Qed.

(** X4. The loader does not ask for an array: any parsed value that has a
    length (an object, a string, an array) is returned as it is, and the
    log tells that length. *)
Theorem load_articles_accepts_any_sized_value (date_str : option string)
    (w : world) (text : string) (v : pyval) :
  let path := articles_path (date_key date_str w) in
  entries (fs w) !! path = Some (File text) →
  json_load text = Return v →
  sized v = true →
  ∃ n, len v = Return n
     ∧ load_articles json_load str_exn date_str w
       = (Return (Some v),
          record_effects w
            (date_effects date_str
               ++ [PathExists path; OpenRead path;
                   LogRecord INFO
                     ("从 " +:+ path +:+ " 加载了 " +:+ str_nat n +:+ " 篇文章")])).
Proof.
  intros path Hfile Hparse Hsized.
  destruct (sized_len v Hsized) as [n Hlen]. exists n. split; [done|].
  rewrite load_articles_run. cbv zeta. fold path.
  by rewrite Hfile, Hparse, Hlen, <- app_assoc.
Qed.

Lemma network_calls_reads_only (es : list effect) :
  Forall (λ e, reads_only e = true) es → network_calls es = [].
Proof.
  induction 1 as [|e es He _ IH]; [done|].
  rewrite network_calls_cons, IH. by destruct e.
Qed.

(** The world a load leaves: the one before, with effects of looking. *)
Lemma load_articles_world (date_str : option string) (w : world) :
  ∃ r es, load_articles json_load str_exn date_str w
          = (Return r, record_effects w es)
        ∧ Forall (λ e, reads_only e = true) es
        ∧ clock_reads es = clock_reads (date_effects date_str).
Proof.
  assert (Hdate : Forall (λ e, reads_only e = true) (date_effects date_str)).
  { unfold date_effects. destruct (truthy_str date_str); by repeat constructor. }
  rewrite load_articles_run. cbv zeta.
  destruct (entries (fs w) !! _) as [[|text]|];
    [|destruct (json_load text) as [v|e]; [destruct (len v) as [n|e]|]|].
  all: eexists _, _; split; [reflexivity|].
  all: split; [|rewrite !clock_reads_app; cbn; by rewrite !app_nil_r].
  all: repeat (apply Forall_app; split); try done; by repeat constructor.
Qed.

(** X5. [load_articles] only looks: whatever the date, the file system and
    the parser do, it lets no exception out, leaves the file system, the
    environment and the clock as they were, and records nothing but looks
    at the clock, at a path and at a file, and log lines. *)
Theorem load_articles_only_reads (date_str : option string) (w : world) :
  ∃ r es, load_articles json_load str_exn date_str w
          = (Return r, record_effects w es)
        ∧ Forall (λ e, reads_only e = true) es
        ∧ network_calls es = [].
Proof.
  destruct (load_articles_world date_str w) as (r & es & Hrun & Hes & _).
  exists r, es. split; [done|]. split; [done|].
  by apply network_calls_reads_only.
Qed.

(** With a credential to work with, the client does what it does with
    a key given by the caller, after the look at the environment if there
    was one. *)
Lemma call_deepseek_api_with_credential (api_key : option string) (k : string)
    (prompt : option string) (articles : option pyval) (w : world) :
  credential api_key w = Some k →
  call_deepseek_api json_dumps str_exn api_key prompt articles w
  = call_deepseek_api json_dumps str_exn (Some k) prompt articles
      (record_effects w (credential_effects api_key)).
Proof.
  unfold credential, credential_effects.
  destruct api_key as [k'|]; [intros [= ->]; by rewrite record_effects_nil|].
  destruct (truthy_str (environ w !! "DEEPSEEK_API_KEY")) eqn:Ht; [|done].
  intros Hk. unfold call_deepseek_api, try_except. unfold bind at 1.
  by rewrite os_environ_get_run, Ht, Hk.
Qed.


(** X7. What the client returns: the content of the first choice of the
    answer, whatever the other choices are; [None] when the answer has no
    choice or the call raised. It lets no exception out and leaves the
    file system and the environment as they were. *)
Theorem call_deepseek_api_returns_first_choice (api_key : option string)
    (k : string) (prompt : option string) (articles : option pyval) (w : world) :
  credential api_key w = Some k →
  ∃ w', call_deepseek_api json_dumps str_exn api_key prompt articles w
        = (Return (first_choice
                     (endpoint w (summary_request json_dumps k prompt articles
                                    (environ w)))), w')
      ∧ fs w' = fs w
      ∧ environ w' = environ w.
Proof.
  intros Hcred. rewrite (call_deepseek_api_with_credential _ _ _ _ _ Hcred).
  rewrite call_deepseek_api_run. cbv zeta.
  rewrite environ_record_effects, endpoint_record_effects.
  destruct (endpoint w _) as [e|[|text choices]]; by eexists.
Qed.

(** The world the writer leaves: it lets no exception out, keeps the
    environment, the clock, the endpoint and the kind of volume, changes
    no entry but the directory and the brief of the date key, and on a
    volume that refuses modification it returns [None] and changes nothing. *)
Lemma save_daily_brief_world (content : string) (date_str : option string)
    (w : world) :
  ∃ r w', save_daily_brief str_exn content date_str w = (Return r, w')
    ∧ environ w' = environ w
    ∧ eastern_now w' = eastern_now w
    ∧ endpoint w' = endpoint w
    ∧ read_only (fs w') = read_only (fs w)
    ∧ (∀ p, p ≠ DAILYBRIEF_DIR → p ≠ brief_path (date_key date_str w) →
            entries (fs w') !! p = entries (fs w) !! p)
    ∧ (read_only (fs w) = true → r = None ∧ fs w' = fs w).
Proof.
  rewrite save_daily_brief_run. cbv zeta.
  rewrite ensure_dir_exists_run, fs_record_effects.
  destruct (entries (fs w) !! DAILYBRIEF_DIR) as [n|] eqn:Hd;
    [|destruct (read_only (fs w)) eqn:Hro]; rewrite ?write_text_run.
  all: repeat match goal with
       | |- context [match resolve_dir ?f ?d with _ => _ end] =>
           destruct (resolve_dir f d)
       | |- context [if is_dir ?o then _ else _] => destruct (is_dir o)
       | |- context [if read_only ?f then _ else _] =>
           destruct (read_only f) eqn:?
       | |- context [match utf8_encode ?c with _ => _ end] =>
           destruct (utf8_encode c)
       end.
  all: eexists _, _; split; [reflexivity|].
  all: cbn [record_effects with_fs add_entry fs environ eastern_now endpoint
            read_only entries] in *.
  all: repeat split; try done; try congruence.
  all: intros p Hp1 Hp2; by rewrite ?lookup_insert_ne.
Qed.

(** How a run of [generate_daily_brief] goes: without a credential it
    stops after an error line; with one, either the articles do not load
    (or are empty) and nothing is sent, or exactly one request is sent
    and, when the first choice of the answer is a non-empty text, the
    writer is called with that text and decides the result. *)
Lemma generate_daily_brief_cases (api_key : option string)
    (date_str : option string) (w : world) :
  let result := generate_daily_brief json_load json_dumps str_exn api_key date_str w in
  (credential api_key w = None
   ∧ result = (Return false,
            record_effects w
              [EnvGet "DEEPSEEK_API_KEY"; LogRecord ERROR "需要DEEPSEEK_API_KEY"]))
  ∨ (∃ k es, credential api_key w = Some k
             ∧ result = (Return false, record_effects w es)
             ∧ network_calls es = [])
  ∨ (∃ k articles es,
       let r := summary_request json_dumps k (Some DEFAULT_PROMPT) (Some articles)
                  (environ w) in
       credential api_key w = Some k
       ∧ network_calls es = [r]
       ∧ clock_reads es = clock_reads (date_effects date_str)
       ∧ ((truthy_str (first_choice (endpoint w r)) = false
           ∧ result = (Return false, record_effects w es))
          ∨ (∃ T saved w3,
               first_choice (endpoint w r) = Some T
               ∧ T ≠ ""
               ∧ save_daily_brief str_exn T date_str (record_effects w es)
                 = (Return saved, w3)
               ∧ result = (Return (match saved with Some _ => true | None => false end),
                        w3)))).
Proof.
  cbv zeta. rewrite generate_daily_brief_run.
  destruct (credential api_key w) as [k|] eqn:Hcred; [right|by left].
  rewrite brief_from_articles_run.
  destruct (load_articles_world date_str
              (record_effects w (credential_effects api_key)))
    as (loaded & es & -> & Hes & Hlooks).
  pose proof (network_calls_reads_only es Hes) as Hquiet.
  assert (Hclock : ∀ rest, clock_reads rest = [] →
            clock_reads (credential_effects api_key ++ es ++ rest)
            = clock_reads (date_effects date_str)).
  { intros rest Hrest.
    by rewrite !clock_reads_app, clock_reads_credential_effects, Hlooks, Hrest,
      app_nil_r. }
  destruct (truthy loaded) eqn:Hloaded.
  2:{ left. exists k. eexists. rewrite record_effects_app.
      split; [reflexivity|]. split; [reflexivity|].
      rewrite network_calls_app, network_calls_credential_effects, Hquiet.
      reflexivity. }
  right. destruct loaded as [articles|]; [|discriminate Hloaded].
  exists k, articles.
  rewrite call_deepseek_api_run. cbv zeta.
  rewrite !environ_record_effects, !endpoint_record_effects.
  set (r := summary_request json_dumps k (Some DEFAULT_PROMPT) (Some articles)
              (environ w)).
  destruct (endpoint w r) as [e|[|first others]] eqn:Hanswer;
    rewrite !record_effects_app; cbn [first_choice].
  1: exists (credential_effects api_key ++ es
               ++ [LogRecord INFO "调用DeepSeek API..."]
               ++ [EnvGet "SUMMARY_MODEL"; HttpPost r]
               ++ [LogRecord ERROR ("调用DeepSeek API失败: " +:+ str_exn e)]).
  2: exists (credential_effects api_key ++ es
               ++ [LogRecord INFO "调用DeepSeek API..."]
               ++ [EnvGet "SUMMARY_MODEL"; HttpPost r]
               ++ [LogRecord ERROR "API响应中未找到有效的choices"]).
  1,2: split; [reflexivity|]; split;
    [rewrite !network_calls_app, network_calls_credential_effects, Hquiet;
     reflexivity|];
    split; [by apply Hclock | left; split; reflexivity].
  exists (credential_effects api_key ++ es
            ++ [LogRecord INFO "调用DeepSeek API..."]
            ++ [EnvGet "SUMMARY_MODEL"; HttpPost r]
            ++ [LogRecord INFO "成功生成摘要"]).
  split; [reflexivity|]. split.
  { rewrite !network_calls_app, network_calls_credential_effects, Hquiet.
    reflexivity. }
  split; [by apply Hclock|].
  destruct (truthy_str first) eqn:Hfirst; [right|left; split; reflexivity].
  destruct first as [T|]; [|discriminate Hfirst].
  change (default "" (Some T)) with T.
  match goal with
  | |- context [save_daily_brief _ T date_str ?w2] =>
      destruct (returns_save_daily_brief T date_str w2) as [saved Hsaved];
      destruct (save_daily_brief str_exn T date_str w2) as [res w3] eqn:Hsave
  end.
  cbn [fst] in Hsaved. subst res. exists T, saved, w3.
  split; [reflexivity|]. split; [|split; [exact Hsave | reflexivity]].
  intros ->. discriminate Hfirst.
Qed.

(** What a run of [generate_daily_brief] sends: nothing, or one request
    made of the credential, the template, the loaded articles and the
    environment. *)
Lemma generate_daily_brief_requests (api_key : option string)
    (date_str : option string) (w : world) :
  ∃ new,
    network_calls
      (trace (snd (generate_daily_brief json_load json_dumps str_exn api_key
                     date_str w)))
    = network_calls (trace w) ++ new
    ∧ (new = []
       ∨ ∃ k articles,
           credential api_key w = Some k
           ∧ new = [summary_request json_dumps k (Some DEFAULT_PROMPT)
                      (Some articles) (environ w)]).
Proof.
  destruct (generate_daily_brief_cases api_key date_str w)
    as [[_ ->]|[(k & es & _ & -> & Hes)
               |(k & articles & es & Hk & Hes & _ & Hrest)]];
    cbv zeta in *.
  - exists []. split; [cbn [snd]; by count_calls|by left].
  - exists []. split; [|by left]. cbn [snd].
    by rewrite network_calls_record, Hes.
  - eexists. split; [|right; by exists k, articles].
    destruct Hrest as [[_ ->]|(T & saved & w3 & _ & _ & Hsave & ->)]; cbn [snd].
    + by rewrite network_calls_record, Hes.
    + pose proof (no_calls_save_daily_brief T date_str (record_effects w es))
        as Hs.
      rewrite Hsave in Hs. unfold no_calls in Hs. cbn [snd] in Hs.
      by rewrite Hs, network_calls_record, Hes.
Qed.

(** What a run of [generate_daily_brief] keeps: it lets no exception
    out, keeps the environment, the clock, the endpoint and the kind of
    volume, changes no entry but the directory and the brief of the date
    key, and on a volume that refuses modification it fails and changes
    nothing. *)
Lemma generate_daily_brief_keeps (api_key : option string)
    (date_str : option string) (w : world) :
  ∃ b w', generate_daily_brief json_load json_dumps str_exn api_key date_str w
          = (Return b, w')
    ∧ environ w' = environ w
    ∧ eastern_now w' = eastern_now w
    ∧ read_only (fs w') = read_only (fs w)
    ∧ (∀ p, p ≠ DAILYBRIEF_DIR → p ≠ brief_path (writer_key date_str w) →
            entries (fs w') !! p = entries (fs w) !! p)
    ∧ (read_only (fs w) = true → b = false ∧ fs w' = fs w).
Proof.
  destruct (generate_daily_brief_cases api_key date_str w)
    as [[_ ->]|[(k & es & _ & -> & Hes)
               |(k & articles & es & Hk & Hes & Hlooks & Hrest)]];
    cbv zeta in *.
  1,2: by eexists _, _.
  destruct Hrest as [[_ ->]|(T & saved & w3 & _ & _ & Hsave & ->)];
    [by eexists _, _|].
  destruct (save_daily_brief_world T date_str (record_effects w es))
    as (r & w' & Hrun & Henv & Hclock & _ & Hro & Hframe & Hfail).
  rewrite Hsave in Hrun. injection Hrun as <- <-.
  rewrite (date_key_same_looks date_str w es (date_effects date_str) Hlooks)
    in Hframe.
  eexists _, _. split; [reflexivity|].
  repeat split; try done.
  - by destruct Hfail as [-> _].
  - by destruct Hfail as [_ ->].
Qed.

Lemma network_calls_after_cli (args : arguments) (w : world) :
  network_calls (trace (after_cli args w)) = network_calls (trace w).
Proof.
  unfold after_cli, cli_effects. rewrite network_calls_record.
  destruct (truthy_str (args_model args)), (truthy_str (args_api_key args));
    cbn; by rewrite app_nil_r.
Qed.

(** What a run of [main] sends once the command line is parsed: nothing,
    or one request made of the credential and the environment the
    command-line layer left. *)
Lemma main_with_flags_requests (args : arguments) (w : world) :
  ∃ new,
    network_calls
      (trace (snd (main_with_flags json_load json_dumps str_exn args w)))
    = network_calls (trace w) ++ new
    ∧ (new = []
       ∨ ∃ k articles,
           credential None (after_cli args w) = Some k
           ∧ new = [summary_request json_dumps k (Some DEFAULT_PROMPT)
                      (Some articles) (cli_environ args (environ w))]).
Proof.
  rewrite main_with_flags_run.
  pose proof (environ_ensure_dir_exists DAILYBRIEF_DIR (after_cli args w)) as He.
  pose proof (no_calls_ensure_dir_exists DAILYBRIEF_DIR (after_cli args w)) as Hn.
  unfold no_calls in Hn. rewrite network_calls_after_cli in Hn.
  destruct (ensure_dir_exists _ _) as [[[]|e] w1]; cbn [snd] in He, Hn |- *.
  2:{ exists []. rewrite app_nil_r. split; [done|by left]. }
  destruct (generate_daily_brief_requests None (args_date args) w1)
    as (new & Hnew & Hshape).
  destruct (generate_daily_brief _ _ _ _ _ w1) as [[b|e] w2];
    cbn [snd] in Hnew |- *; exists new.
  all: split;
    [rewrite ?network_calls_record, Hnew, Hn;
     try (assert (network_calls [outcome_line b] = []) as -> by (by destruct b));
     by rewrite ?app_nil_r|].
  all: destruct Hshape as [->|(k & articles & Hk & ->)]; [by left|right].
  all: exists k, articles; split; [|by rewrite He].
  all: unfold credential in *; by rewrite He in Hk.
Qed.

(** The same for [main] on any command line: a parser that leaves the
    program has sent nothing. *)
Lemma main_requests (argv : list string) (w : world) :
  ∃ new,
    network_calls
      (trace (snd (main json_load json_dumps str_exn parse_args argv w)))
    = network_calls (trace w) ++ new
    ∧ (new = []
       ∨ ∃ args k articles,
           parse_args argv = Namespace args
           ∧ credential None (after_cli args w) = Some k
           ∧ new = [summary_request json_dumps k (Some DEFAULT_PROMPT)
                      (Some articles) (cli_environ args (environ w))]).
Proof.
  rewrite main_world. destruct (parse_args argv) as [args|status] eqn:Hparse.
  - destruct (main_with_flags_requests args w)
      as (new & Hnew & [->|(k & a & Hk & ->)]);
      eexists; (split; [exact Hnew|]); [by left|right].
    by exists args, k, a.
  - exists []. rewrite app_nil_r. split; [done|by left].
Qed.

(** X8. One external call per invocation, with fixed parameters: whatever
    the command line and the world, [main] sends at most one request to
    the endpoint; the request goes to the DeepSeek base URL, asks for
    temperature 0.6, at most 4096 tokens and no streaming, and carries a
    single [user] message that starts with the fixed template. *)
Theorem main_sends_at_most_one_request (argv : list string) (w : world) :
  ∃ new,
    network_calls
      (trace (snd (main json_load json_dumps str_exn parse_args argv w)))
    = network_calls (trace w) ++ new
    ∧ (length new ≤ 1)%nat
    ∧ Forall fixed_parameters new.
Proof.
  destruct (main_requests argv w) as (new & Hnew & [->|(args & k & a & _ & _ & ->)]);
    eexists; (split; [exact Hnew|]); (split; [cbn; lia|]).
  - constructor.
  - repeat constructor. eexists. split; [reflexivity|]. by eexists.
Qed.

(** X9. The key of a request: a non-empty [--api-key] flag is written to
    the environment and is the key of whatever [main] sends, whatever the
    environment held before; without the flag the key is the one of the
    environment. *)
Theorem main_request_key_is_flag_then_environment (argv : list string)
    (w : world) :
  ∃ new,
    network_calls
      (trace (snd (main json_load json_dumps str_exn parse_args argv w)))
    = network_calls (trace w) ++ new
    ∧ Forall (λ r, ∀ args, parse_args argv = Namespace args →
                Some (req_api_key r)
                = if truthy_str (args_api_key args) then args_api_key args
                  else environ w !! "DEEPSEEK_API_KEY") new.
Proof.
  destruct (main_requests argv w)
    as (new & Hnew & [->|(args & k & a & Hparse & Hk & ->)]);
    eexists; (split; [exact Hnew|]); [constructor|].
  repeat constructor. intros args' Hparse'.
  rewrite Hparse in Hparse'. injection Hparse' as <-.
  cbn [req_api_key summary_request].
  unfold credential in Hk.
  destruct (truthy_str (args_api_key args)) eqn:Hflag.
  - assert (environ (after_cli args w) !! "DEEPSEEK_API_KEY" = args_api_key args)
      as Hset.
    { unfold after_cli, cli_environ. rewrite environ_record_effects.
      cbn [with_environ environ]. rewrite Hflag, lookup_insert_eq.
      by destruct (args_api_key args). }
    rewrite Hset, Hflag in Hk. by rewrite Hk.
  - rewrite credential_after_cli in Hk by done.
    by destruct (truthy_str (environ w !! "DEEPSEEK_API_KEY")).
Qed.


(** X11. A volume that refuses modification: the writer returns [None]
    and [generate_daily_brief] returns [False], whatever the articles and
    the endpoint do, and both leave the file system as it was. *)
Theorem read_only_volume_fails_the_run (api_key : option string)
    (date_str : option string) (content : string) (w : world) :
  read_only (fs w) = true →
  (∃ w1, save_daily_brief str_exn content date_str w = (Return None, w1)
         ∧ fs w1 = fs w)
  ∧ (∃ w', generate_daily_brief json_load json_dumps str_exn api_key date_str w
           = (Return false, w')
         ∧ fs w' = fs w).
Proof.
  intros Hro. split.
  - destruct (save_daily_brief_world content date_str w)
      as (r & w1 & Hrun & _ & _ & _ & _ & _ & Hfail).
    destruct (Hfail Hro) as [-> Hfs]. by exists w1.
  - destruct (generate_daily_brief_keeps api_key date_str w)
      as (b & w' & Hrun & _ & _ & _ & _ & Hfail).
    destruct (Hfail Hro) as [-> Hfs]. by exists w'.
Qed.

(** X12. The writer touches two paths at most: it lets no exception out,
    keeps the environment and the kind of volume, and every entry of the
    file system other than [dailybrief] and the brief of the date key is
    what it was. *)
Theorem save_daily_brief_touches_only_its_paths (content : string)
    (date_str : option string) (w : world) :
  ∃ r w', save_daily_brief str_exn content date_str w = (Return r, w')
    ∧ environ w' = environ w
    ∧ read_only (fs w') = read_only (fs w)
    ∧ ∀ p, p ≠ DAILYBRIEF_DIR → p ≠ brief_path (date_key date_str w) →
           entries (fs w') !! p = entries (fs w) !! p.
Proof.
  destruct (save_daily_brief_world content date_str w)
    as (r & w' & Hrun & Henv & _ & _ & Hro & Hframe & _).
  by exists r, w'.
Qed.

(** The command-line layer and the directory step look at no clock. *)
Lemma writer_key_after_directory_step (args : arguments) (date_str : option string)
    (w : world) :
  writer_key date_str (snd (ensure_dir_exists DAILYBRIEF_DIR (after_cli args w)))
  = writer_key date_str w.
Proof.
  assert (Hquiet : ∀ es f,
            clock_reads es = [] →
            writer_key date_str
              (record_effects (with_fs (after_cli args w) f) es)
            = writer_key date_str w).
  { intros es f Hes. unfold writer_key, date_key, looks, after_cli.
    cbn [record_effects with_fs with_environ trace eastern_now].
    assert (clock_reads (cli_effects args) = []) as Hcli.
    { unfold cli_effects.
      by destruct (truthy_str (args_model args)),
                  (truthy_str (args_api_key args)). }
    by rewrite !clock_reads_app, Hcli, Hes, !app_nil_r. }
  rewrite ensure_dir_exists_run.
  assert (∀ w0 : world, w0 = with_fs w0 (fs w0)) as Hsame by (by intros []).
  destruct (entries (fs (after_cli args w)) !! DAILYBRIEF_DIR);
    [|destruct (read_only (fs (after_cli args w)))]; cbn [snd].
  - rewrite (Hsame (after_cli args w)). by apply Hquiet.
  - rewrite (Hsame (after_cli args w)). by apply Hquiet.
  - by apply (Hquiet _ (add_entry (fs (after_cli args w)) DAILYBRIEF_DIR Dir)).
Qed.

(** X13. The articles are consumed read-only: whatever a run of [main]
    does, every entry of the file system other than [dailybrief] and the
    brief of the writer's date key is what it was; the articles file in
    particular.  The writer's date key is the one of the command line, or
    the day the clock shows at the second look of the run. *)
Theorem main_touches_only_its_paths (argv : list string) (w : world)
    (p : string) :
  p ≠ DAILYBRIEF_DIR →
  (∀ args, parse_args argv = Namespace args →
           p ≠ brief_path (writer_key (args_date args) w)) →
  entries (fs (snd (main json_load json_dumps str_exn parse_args argv w))) !! p
  = entries (fs w) !! p.
Proof.
  intros Hp1 Hp2. rewrite main_world.
  destruct (parse_args argv) as [args|status]; [|done].
  specialize (Hp2 args eq_refl).
  rewrite main_with_flags_run.
  pose proof (writer_key_after_directory_step args (args_date args) w) as Hkey.
  assert (Hdir : entries (fs (snd (ensure_dir_exists DAILYBRIEF_DIR
                                     (after_cli args w)))) !! p
                 = entries (fs w) !! p).
  { rewrite ensure_dir_exists_run.
    change (fs (after_cli args w)) with (fs w).
    destruct (entries (fs w) !! DAILYBRIEF_DIR) as [n|];
      [|destruct (read_only (fs w))]; cbn [snd]; try done.
    cbn [record_effects with_fs add_entry fs entries].
    by rewrite lookup_insert_ne. }
  destruct (ensure_dir_exists _ _) as [[[]|e] w1]; cbn [snd] in Hkey, Hdir |- *;
    [|done].
  destruct (generate_daily_brief_keeps None (args_date args) w1)
    as (b & w2 & -> & _ & _ & _ & Hframe & _).
  cbn [snd]. rewrite fs_record_effects, Hframe; [done..|].
  by rewrite Hkey.
Qed.

End Properties.

(** ** The clock *)

#[local] Instance no_clock_preorder : PreOrder no_clock.
Proof.
  split.
  - by intros w.
  - intros w1 w2 w3 H12 H23. unfold no_clock in *. congruence.
Qed.

Ltac solve_no_clock :=
  run_primitive; unfold no_clock; cbn [trace];
  rewrite ?clock_reads_app; cbn; by rewrite ?app_nil_r.

Lemma no_clock_logger_info msg : respects no_clock (logger_info msg).
Proof. solve_no_clock. Qed.

Lemma no_clock_logger_error msg : respects no_clock (logger_error msg).
Proof. solve_no_clock. Qed.

Lemma no_clock_os_path_exists path : respects no_clock (os_path_exists path).
Proof. solve_no_clock. Qed.

Lemma no_clock_os_makedirs path : respects no_clock (os_makedirs path).
Proof. solve_no_clock. Qed.

Lemma no_clock_read_text path : respects no_clock (read_text path).
Proof. solve_no_clock. Qed.

Lemma no_clock_open_for_writing path : respects no_clock (open_for_writing path).
Proof. solve_no_clock. Qed.

Lemma no_clock_file_write path content :
  respects no_clock (file_write path content).
Proof. solve_no_clock. Qed.

Lemma no_clock_write_text path content : respects no_clock (write_text path content).
Proof.
  apply (respects_bind no_clock);
    [apply no_clock_open_for_writing | intros; apply no_clock_file_write].
Qed.

Lemma no_clock_os_environ_get key : respects no_clock (os_environ_get key).
Proof. solve_no_clock. Qed.

Lemma no_clock_os_environ_set key value :
  respects no_clock (os_environ_set key value).
Proof. solve_no_clock. Qed.

Lemma no_clock_chat_completions_create r :
  respects no_clock (chat_completions_create r).
Proof. solve_no_clock. Qed.

Create HintDb clock_db.
#[local] Hint Resolve no_clock_logger_info no_clock_logger_error
  no_clock_os_path_exists no_clock_os_makedirs no_clock_read_text
  no_clock_write_text no_clock_os_environ_get no_clock_os_environ_set
  no_clock_chat_completions_create : clock_db.

Section Robustness.

Context (json_load : string → outcome pyval).
Context (json_dumps : bool → option nat → pyval → string).
Context (str_exn : exn → string).
Context (parse_args : list string → parse_result).

Lemma no_clock_generate_daily_brief (api_key : option string)
    (date_str : option string) :
  truthy_str date_str = true →
  respects no_clock
    (generate_daily_brief json_load json_dumps str_exn api_key date_str).
Proof.
  intros Hdate.
  unfold generate_daily_brief, brief_from_articles, load_articles,
    call_deepseek_api, request_summary, save_daily_brief, ensure_dir_exists.
  rewrite Hdate. cbn [negb].
  frame no_clock clock_db.
Qed.

(** X14. A run for a given date does not depend on the day it is made:
    on a command line with a non-empty [--date], neither the loader nor
    the writer nor any other part of [main] looks at the clock. *)
Theorem explicit_date_never_reads_clock (argv : list string) (w : world) :
  (∀ args, parse_args argv = Namespace args →
           truthy_str (args_date args) = true) →
  clock_reads (trace (snd (main json_load json_dumps str_exn parse_args argv w)))
  = clock_reads (trace w).
Proof.
  intros Hdate. rewrite main_world.
  destruct (parse_args argv) as [args|status]; [|done].
  specialize (Hdate args eq_refl).
  pose proof (no_clock_generate_daily_brief None (args_date args) Hdate).
  assert (respects no_clock (main_with_flags json_load json_dumps str_exn args))
    as Hmain.
  { unfold main_with_flags, ensure_dir_exists. frame no_clock clock_db. }
  apply Hmain.
Qed.

(** X15. Every failure below [main] is caught: [load_articles],
    [call_deepseek_api], [save_daily_brief] and [generate_daily_brief]
    let no exception out, whatever their arguments, the file system, the
    parser and the endpoint do; they return [None] or [False] instead. *)
Theorem stages_never_raise (api_key prompt date_str : option string)
    (articles : option pyval) (content : string) (w : world) :
  (∃ r, fst (load_articles json_load str_exn date_str w) = Return r)
  ∧ (∃ r, fst (call_deepseek_api json_dumps str_exn api_key prompt articles w)
          = Return r)
  ∧ (∃ r, fst (save_daily_brief str_exn content date_str w) = Return r)
  ∧ (∃ b, fst (generate_daily_brief json_load json_dumps str_exn api_key
                 date_str w) = Return b).
Proof.
  split; [apply returns_load_articles|].
  split; [apply returns_call_deepseek_api|].
  split; [apply returns_save_daily_brief|].
  apply returns_generate_daily_brief.
Qed.

End Robustness.

(** ** The prompt, with the serializer of the reference library *)

(** A text without quotes, backslashes and control characters is printed
    between quotes as it is, its non-ASCII bytes included, when
    [ensure_ascii] is off. *)
Lemma escape_char_unescaped (c : ascii) :
  unescaped c = true → JsonRef.escape_char c = String c EmptyString.
Proof.
  unfold unescaped, JsonRef.escape_char.
  intros [[Hn Hq%negb_true_iff]%andb_true_iff Hb%negb_true_iff]%andb_true_iff.
  apply Nat.leb_le in Hn. rewrite Hq, Hb.
  repeat match goal with
         | |- context [(?n =? ?m)%nat] =>
             destruct (Nat.eqb_spec n m); [lia|]
         end.
  destruct (Nat.ltb_spec (nat_of_ascii c) 32); [lia|done].
Qed.

Lemma escape_unescaped (s : string) :
  all_unescaped s = true → JsonRef.escape s = s.
Proof.
  induction s as [|c s IH]; [done|]. cbn [all_unescaped JsonRef.escape].
  intros [Hc Hs]%andb_true_iff.
  rewrite (escape_char_unescaped c Hc), (IH Hs). done.
Qed.

Lemma unescaped_non_ascii (c : ascii) :
  (128 ≤ nat_of_ascii c)%nat → unescaped c = true.
Proof.
  intros Hc. unfold unescaped.
  apply andb_true_iff. split; [apply andb_true_iff; split|].
  - apply Nat.leb_le. lia.
  - apply negb_true_iff, Ascii.eqb_neq. intros ->. vm_compute in Hc. lia.
  - apply negb_true_iff, Ascii.eqb_neq. intros ->. vm_compute in Hc. lia.
Qed.

Lemma dumps_unescaped_text (indent : option nat) (s : string) :
  all_unescaped s = true →
  JsonRef.dumps false indent (PStr s) = quoted s.
Proof.
  intros Hs. unfold JsonRef.dumps, quoted. cbn [JsonRef.dumps_at].
  unfold JsonRef.encode_str. by rewrite (escape_unescaped s Hs).
Qed.

(** Induction on a value and the values inside it. *)
Lemma pyval_nested_ind (P : pyval → Prop) :
  P PNone → (∀ b, P (PBool b)) → (∀ z, P (PInt z)) → (∀ r, P (PFloat r)) →
  (∀ s, P (PStr s)) →
  (∀ items, Forall P items → P (PList items)) →
  (∀ fields, Forall (λ kv, P (snd kv)) fields → P (PDict fields)) →
  ∀ v, P v.
Proof.
  intros HNone HBool HInt HFloat HStr HList HDict.
  fix IH 1. intros [ |b|z|r|s|items|fields].
  - exact HNone.
  - apply HBool.
  - apply HInt.
  - apply HFloat.
  - apply HStr.
  - apply HList. induction items as [|item items IHitems]; constructor.
    + apply IH.
    + exact IHitems.
  - apply HDict. induction fields as [|[k v] fields IHfields]; constructor.
    + apply IH.
    + exact IHfields.
Qed.

Lemma string_app_nil_r (s : string) : s +:+ "" = s.
Proof.
  induction s as [|c s IH]; [done|].
  change (String c (s +:+ "") = String c s). by rewrite IH.
Qed.

Lemma is_infix_refl (p : string) : is_infix p p.
Proof. exists "", "". change (p = p +:+ ""). by rewrite string_app_nil_r. Qed.

Lemma is_infix_app_l (p a b : string) : is_infix p a → is_infix p (a +:+ b).
Proof.
  intros (front & rest & ->). exists front, (rest +:+ b).
  by rewrite <- !string_app_assoc.
Qed.

Lemma is_infix_app_r (p a b : string) : is_infix p b → is_infix p (a +:+ b).
Proof.
  intros (front & rest & ->). exists (a +:+ front), rest.
  by rewrite <- !string_app_assoc.
Qed.

Lemma is_infix_join (p sep : string) (parts : list string) (part : string) :
  In part parts → is_infix p part → is_infix p (JsonRef.join sep parts).
Proof.
  intros Hin Hp. induction parts as [|q parts IH]; [done|].
  destruct parts as [|q' parts].
  - destruct Hin as [->|[]]. exact Hp.
  - change (is_infix p (q +:+ sep +:+ JsonRef.join sep (q' :: parts))).
    destruct Hin as [->|Hin].
    + by apply is_infix_app_l.
    + apply is_infix_app_r, is_infix_app_r, IH, Hin.
Qed.

(** Every text inside a value that needs no escape stands in the
    serialization between quotes, as it is, at whatever depth it is. *)
Lemma dumps_keeps_texts (indent : option nat) (v : pyval) :
  ∀ level s, In s (texts_of v) → all_unescaped s = true →
    is_infix (quoted s) (JsonRef.dumps_at false indent level v).
Proof.
  induction v as [ | | | |s0|items IH|fields IH] using pyval_nested_ind;
    intros level s Hin Hs; cbn [texts_of] in Hin; try done.
  - destruct Hin as [->|[]]. cbn [JsonRef.dumps_at]. unfold JsonRef.encode_str.
    rewrite (escape_unescaped s Hs). apply is_infix_refl.
  - apply in_flat_map in Hin as (item & Hitem & Hin).
    destruct items as [|i0 items]; [done|].
    cbn [JsonRef.dumps_at].
    apply is_infix_app_r, is_infix_app_r, is_infix_app_l.
    apply (is_infix_join _ _ _ (JsonRef.dumps_at false indent (S level) item)).
    + by apply in_map.
    + rewrite Forall_forall in IH. apply IH; [|done..].
      by apply list_elem_of_In.
  - apply in_flat_map in Hin as ([k v] & Hkv & Hin).
    destruct fields as [|f0 fields]; [done|].
    cbn [JsonRef.dumps_at].
    apply is_infix_app_r, is_infix_app_r, is_infix_app_l.
    apply (is_infix_join _ _ _
             (JsonRef.encode_str false k +:+ ": "
                +:+ JsonRef.dumps_at false indent (S level) v)).
    + apply (in_map (λ kv, JsonRef.encode_str false (fst kv) +:+ ": "
                      +:+ JsonRef.dumps_at false indent (S level) (snd kv))
               _ (k, v) Hkv).
    + cbn [fst snd] in Hin. destruct Hin as [->|Hin].
      * apply is_infix_app_l. unfold JsonRef.encode_str.
        rewrite (escape_unescaped s Hs). apply is_infix_refl.
      * apply is_infix_app_r, is_infix_app_r.
        rewrite Forall_forall in IH.
        apply (IH (k, v)); [|done..]. by apply list_elem_of_In.
Qed.

(** With [indent=2] the items of an array stand on lines of their own,
    two blanks deeper than the brackets. *)
Lemma dumps_array_layout (ensure_ascii : bool) (item : pyval) (rest : list pyval) :
  JsonRef.dumps ensure_ascii (Some 2) (PList (item :: rest))
  = "[" +:+ LF +:+ "  "
      +:+ JsonRef.join ("," +:+ LF +:+ "  ")
            (map (JsonRef.dumps_at ensure_ascii (Some 2) 1) (item :: rest))
      +:+ LF +:+ "]".
Proof. reflexivity. Qed.

(** C3. The one message of the request is the template, then the JSON of
    the loaded records: when [generate_daily_brief] has a credential and
    the article file parses to a sized, non-empty value [articles], the
    run sends exactly one request; it carries a single [user] message
    whose text is [DEFAULT_PROMPT], a fixed separator, and
    [json.dumps(articles, ensure_ascii=False, indent=2)], so the template
    is a prefix of it and the serialization a suffix.  The serialization
    is the indented one: an array has each record on lines of its own, two
    blanks deeper; and it is not the ASCII one: every text inside the
    loaded value (a string or a key, at any depth) that has no quote,
    backslash or control character stands in the message between quotes
    as it is, with its non-ASCII bytes. *)
Theorem prompt_is_template_then_json (json_load : string → outcome pyval)
    (str_exn : exn → string) (api_key : option string) (k : string)
    (date_str : option string) (w : world) (text : string) (articles : pyval) :
  credential api_key w = Some k →
  entries (fs w) !! articles_path (date_key date_str w) = Some (File text) →
  json_load text = Return articles →
  sized articles = true →
  truthy_val articles = true →
  ∃ r content,
    network_calls
      (trace (snd (generate_daily_brief json_load JsonRef.dumps str_exn api_key
                     date_str w)))
    = network_calls (trace w) ++ [r]
    ∧ req_messages r = [("user", content)]
    ∧ content = DEFAULT_PROMPT +:+ LF +:+ LF +:+ "输入数据:" +:+ LF
                  +:+ JsonRef.dumps false (Some 2) articles
    ∧ is_prefix DEFAULT_PROMPT content
    ∧ is_suffix (JsonRef.dumps false (Some 2) articles) content
    ∧ (∀ item rest, articles = PList (item :: rest) →
         JsonRef.dumps false (Some 2) articles
         = "[" +:+ LF +:+ "  "
             +:+ JsonRef.join ("," +:+ LF +:+ "  ")
                   (map (JsonRef.dumps_at false (Some 2) 1) (item :: rest))
             +:+ LF +:+ "]")
    ∧ (∀ s, In s (texts_of articles) → all_unescaped s = true →
         is_infix (quoted s) content).
Proof.
  intros Hcred Hfile Hparse Hsized Htruthy.
  destruct (generate_daily_brief_message json_load JsonRef.dumps str_exn
              api_key k date_str w text articles Hcred Hfile Hparse Hsized
              Htruthy) as (r & content & Hcalls & Hmsg & Hcontent & Hpre & Hsuf).
  exists r, content. do 5 (split; [assumption|]). split.
  - intros item rest ->. apply dumps_array_layout.
  - intros s Hin Hs. rewrite Hcontent.
    do 5 apply is_infix_app_r. by apply dumps_keeps_texts.
Qed.

(** ** The program on concrete worlds *)

(** The reference library on the sample file: the parser reads the two
    records in order, the printer called as the program calls it indents
    by two blanks and leaves the non-ASCII text as it is, and reading what
    was printed gives the records back. *)
Example loads_two_articles :
  JsonRef.loads two_articles_text = Return (PList two_articles).
Proof. reflexivity. Qed.

Example dumps_two_articles :
  JsonRef.dumps false (Some 2) (PList two_articles)
  = "[" +:+ LF
      +:+ "  {" +:+ LF
      +:+ "    " +:+ quoted "title" +:+ ": " +:+ quoted "Fed holds rates" +:+ LF
      +:+ "  }," +:+ LF
      +:+ "  {" +:+ LF
      +:+ "    " +:+ quoted "title" +:+ ": " +:+ quoted "芯片出口" +:+ LF
      +:+ "  }" +:+ LF
      +:+ "]".
Proof. reflexivity. Qed.

(** Called without the two parameters, the printer gives another text:
    one line, and escapes for what is not ASCII. *)
Example dumps_two_articles_by_default :
  JsonRef.dumps true None (PList two_articles)
  = "[{" +:+ quoted "title" +:+ ": " +:+ quoted "Fed holds rates" +:+ "}, {"
      +:+ quoted "title" +:+ ": "
      +:+ quoted (String JsonRef.BACKSLASH "u82af"
                    +:+ String JsonRef.BACKSLASH "u7247"
                    +:+ String JsonRef.BACKSLASH "u51fa"
                    +:+ String JsonRef.BACKSLASH "u53e3")
      +:+ "}]".
Proof. reflexivity. Qed.

Example loads_dumps_two_articles :
  JsonRef.loads (JsonRef.dumps false (Some 2) (PList two_articles))
  = Return (PList two_articles).
Proof. reflexivity. Qed.

(** The reference parser on some command lines: the flags in full, an
    abbreviation and a joined value, the help, and what it rejects. *)
Example parse_args_samples :
  ArgRef.parse_args no_flags = Namespace no_flags_parsed
  ∧ ArgRef.parse_args flags_with_model = Namespace flags_with_model_parsed
  ∧ ArgRef.parse_args ["--da=20240101"] = Namespace flags_with_date_parsed
  ∧ ArgRef.parse_args ["--date"; "20240101"; "--help"] = SystemExit 0
  ∧ ArgRef.parse_args ["--bogus"] = SystemExit 2
  ∧ ArgRef.parse_args ["--date"] = SystemExit 2
  ∧ ArgRef.parse_args ["20240101"] = SystemExit 2.
Proof. by vm_compute. Qed.

(** A whole run: with a key, the articles of the day and an endpoint that
    answers, the brief of the day holds the answer, and the log tells the
    stages in order. *)
Example sample_run_writes_brief :
  let w := world_with_articles two_articles_text key_in_env padded_brief in
  let w' := snd (run_main ["--date"; "20240101"] w) in
  entries (fs w') !! "dailybrief/20240101.md" = Some (File padded_brief)
  ∧ omap (λ e, match e with LogRecord _ msg => Some msg | _ => None end) (trace w')
    = ["创建目录: dailybrief";
       "从 articles/20240101.json 加载了 2 篇文章";
       "调用DeepSeek API...";
       "成功生成摘要";
       "简报已保存到 dailybrief/20240101.md";
       "简报生成成功"].
Proof. by vm_compute. Qed.

(** A run without [--date] that starts before midnight and writes after
    it: the articles of the old day are read, and the brief is the new
    day's. *)
Example run_across_midnight :
  let w' := snd (run_main no_flags world_at_midnight) in
  fst (run_main no_flags world_at_midnight) = Returned
  ∧ OpenRead "articles/20231231.json" ∈ trace w'
  ∧ entries (fs w') !! "dailybrief/20240101.md" = Some (File padded_brief)
  ∧ entries (fs w') !! "dailybrief/20231231.md" = None.
Proof.
  vm_compute. split; [done|]. split; [|done].
  repeat first [apply list_elem_of_here | apply list_elem_of_further].
Qed.

(** The text of the endpoint reaches the file with its blanks and its
    final line feed. *)
Lemma brief_file_holds_generated_text_witness :
  let w := sample_world in
  let date := Some "20240101" in
  let path := brief_path (writer_key date w) in
  credential None w = Some "sk-test"
  ∧ entries (fs w) !! articles_path (date_key date w) = Some (File two_articles_text)
  ∧ JsonRef.loads two_articles_text = Return (PList two_articles)
  ∧ endpoint w (summary_request JsonRef.dumps "sk-test" (Some DEFAULT_PROMPT)
                  (Some (PList two_articles)) (environ w))
    = ApiResponse [Some padded_brief]
  ∧ padded_brief ≠ ""
  ∧ utf8_valid padded_brief = true
  ∧ ∃ w', generate_daily_brief JsonRef.loads JsonRef.dumps JsonRef.str_exn None
            date w = (Return true, w')
        ∧ entries (fs w') !! path = Some (File padded_brief).
Proof.
  intros w date path.
  assert (padded_brief ≠ "") as Hne by discriminate.
  do 4 (split; [reflexivity|]). split; [exact Hne|]. split; [reflexivity|].
  destruct (brief_file_holds_generated_text JsonRef.loads JsonRef.dumps
              JsonRef.str_exn None "sk-test" date w two_articles_text
              (PList two_articles) padded_brief []
              eq_refl eq_refl eq_refl eq_refl eq_refl eq_refl Hne eq_refl
              eq_refl eq_refl eq_refl eq_refl)
    as (n & w' & _ & _ & _ & Hrun & Hfile).
  exists w'. split; [exact Hrun | exact Hfile].
Defined.

(** C1, refuted as stated. A text of the client is not always what the
    file holds afterwards: an empty first choice is not handed to the
    writer, so the brief of an earlier run stays; and a first choice with
    a surrogate, which UTF-8 cannot encode, is handed to the writer, which
    has emptied the file when the encoding fails: the file then holds
    neither the text nor what it held before, and the run reports
    failure. *)
Lemma unencodable_text_leaves_empty_brief :
  (let w := world_with_old_brief "" in
   let w' := snd (generate_daily_brief JsonRef.loads JsonRef.dumps
                    JsonRef.str_exn None (Some "20240101") w) in
   network_calls (trace w') ≠ []
   ∧ entries (fs w') !! "dailybrief/20240101.md" = Some (File "# Old brief"))
  ∧ (let w := world_with_old_brief broken_brief in
     let result := generate_daily_brief JsonRef.loads JsonRef.dumps
                     JsonRef.str_exn None (Some "20240101") w in
     first_choice
       (endpoint w (summary_request JsonRef.dumps "sk-test" (Some DEFAULT_PROMPT)
                      (Some (PList two_articles)) (environ w)))
     = Some broken_brief
     ∧ fst result = Return false
     ∧ OpenWrite "dailybrief/20240101.md" ∈ trace (snd result)
     ∧ entries (fs (snd result)) !! "dailybrief/20240101.md" = Some (File "")
     ∧ broken_brief ≠ "").
Proof.
  split.
  - vm_compute. split; [discriminate | reflexivity].
  - split; [reflexivity|]. vm_compute.
    split; [reflexivity|]. split; [|split; [reflexivity | discriminate]].
    repeat first [apply list_elem_of_here | apply list_elem_of_further].
Qed.

Lemma load_articles_returns_file_records_witness :
  let w := world_with_articles two_articles_text key_in_env padded_brief in
  let path := articles_path (date_key (Some "20240101") w) in
  entries (fs w) !! path = Some (File two_articles_text)
  ∧ JsonRef.loads two_articles_text = Return (PList two_articles)
  ∧ load_articles JsonRef.loads JsonRef.str_exn (Some "20240101") w
    = (Return (Some (PList two_articles)),
       record_effects w
         (date_effects (Some "20240101")
            ++ [PathExists path; OpenRead path;
                LogRecord INFO
                  ("从 " +:+ path +:+ " 加载了 " +:+ str_nat (length two_articles)
                     +:+ " 篇文章")])).
Proof.
  intros w path. do 2 (split; [reflexivity|]).
  apply (load_articles_returns_file_records JsonRef.loads JsonRef.str_exn
           (Some "20240101") w two_articles_text two_articles); reflexivity.
Defined.

Lemma prompt_is_template_then_json_witness :
  let w := world_with_articles two_articles_text key_in_env padded_brief in
  credential None w = Some "sk-test"
  ∧ entries (fs w) !! articles_path (date_key (Some "20240101") w)
    = Some (File two_articles_text)
  ∧ JsonRef.loads two_articles_text = Return (PList two_articles)
  ∧ sized (PList two_articles) = true
  ∧ truthy_val (PList two_articles) = true
  ∧ ∃ r content,
      network_calls
        (trace (snd (generate_daily_brief JsonRef.loads JsonRef.dumps
                       JsonRef.str_exn None (Some "20240101") w)))
      = network_calls (trace w) ++ [r]
      ∧ req_messages r = [("user", content)]
      ∧ content = DEFAULT_PROMPT +:+ LF +:+ LF +:+ "输入数据:" +:+ LF
                    +:+ JsonRef.dumps false (Some 2) (PList two_articles)
      ∧ is_prefix DEFAULT_PROMPT content
      ∧ is_suffix (JsonRef.dumps false (Some 2) (PList two_articles)) content
      ∧ is_infix (quoted "芯片出口") content.
Proof.
  intros w. do 5 (split; [reflexivity|]).
  destruct (prompt_is_template_then_json JsonRef.loads JsonRef.str_exn
              None "sk-test" (Some "20240101") w two_articles_text
              (PList two_articles) eq_refl eq_refl eq_refl eq_refl eq_refl)
    as (r & content & H1 & H2 & H3 & H4 & H5 & _ & H7).
  exists r, content. do 5 (split; [assumption|]).
  apply (H7 "芯片出口"); [|reflexivity].
  do 3 right. left. reflexivity.
Defined.

Lemma absent_credential_fails_without_network_call_witness :
  let w := world_with_articles two_articles_text ∅ padded_brief in
  truthy_str (environ w !! "DEEPSEEK_API_KEY") = false
  ∧ generate_daily_brief JsonRef.loads JsonRef.dumps JsonRef.str_exn None None w
    = (Return false,
       record_effects w
         [EnvGet "DEEPSEEK_API_KEY"; LogRecord ERROR "需要DEEPSEEK_API_KEY"]).
Proof.
  intros w. split; [reflexivity|].
  apply (proj1 (absent_credential_fails_without_network_call JsonRef.loads
                  JsonRef.dumps JsonRef.str_exn ArgRef.parse_args no_flags None
                  None None w eq_refl)).
Defined.

Lemma rerun_overwrites_brief_witness :
  let w := world_with_articles two_articles_text key_in_env padded_brief in
  let later := snd (save_daily_brief JsonRef.str_exn "# first" (Some "20240101") w) in
  "20240101" ≠ ""
  ∧ has_slash "20240101" = false
  ∧ utf8_valid padded_brief = true
  ∧ read_only (fs w) = false
  ∧ is_file (entries (fs w) !! DAILYBRIEF_DIR) = false
  ∧ is_dir (entries (fs w) !! brief_path "20240101") = false
  ∧ ∃ w2, save_daily_brief JsonRef.str_exn padded_brief (Some "20240101") later
          = (Return (Some (brief_path "20240101")), w2)
        ∧ entries (fs w2) !! brief_path "20240101" = Some (File padded_brief)
        ∧ entries (fs w2)
          = <[brief_path "20240101" := File padded_brief]>
              (<[DAILYBRIEF_DIR := Dir]> (entries (fs w)))
        ∧ fs w2 = fs (snd (save_daily_brief JsonRef.str_exn padded_brief
                             (Some "20240101") w)).
Proof.
  intros w later. split; [discriminate|]. do 5 (split; [reflexivity|]).
  apply (rerun_overwrites_brief JsonRef.str_exn "# first" padded_brief "20240101"
           w later); try reflexivity; discriminate.
Defined.

(** C6, refuted as stated. Writing a text that UTF-8 cannot encode over
    the brief of an earlier run: the writer returns [None], and the file
    holds neither the new text nor the old one; it is empty. *)
Lemma rerun_with_unencodable_text_empties_brief :
  let w := world_with_articles two_articles_text key_in_env padded_brief in
  let first := save_daily_brief JsonRef.str_exn "# first" (Some "20240101") w in
  let second := save_daily_brief JsonRef.str_exn broken_brief (Some "20240101")
                  (snd first) in
  fst first = Return (Some "dailybrief/20240101.md")
  ∧ entries (fs (snd first)) !! "dailybrief/20240101.md" = Some (File "# first")
  ∧ fst second = Return None
  ∧ entries (fs (snd second)) !! "dailybrief/20240101.md" = Some (File "")
  ∧ broken_brief ≠ "".
Proof. vm_compute. by repeat split. Qed.


Lemma empty_collection_aborts_run_witness :
  let w := world_with_articles "[]" key_in_env padded_brief in
  entries (fs w) !! articles_path (date_key (Some "20240101") w) = Some (File "[]")
  ∧ JsonRef.loads "[]" = Return (PList [])
  ∧ ∃ w', generate_daily_brief JsonRef.loads JsonRef.dumps JsonRef.str_exn None
            (Some "20240101") w = (Return false, w')
        ∧ network_calls (trace w') = network_calls (trace w).
Proof.
  intros w. do 2 (split; [reflexivity|]).
  apply (proj1 (proj2 (empty_collection_aborts_run JsonRef.loads JsonRef.dumps
                         JsonRef.str_exn None (Some "20240101") w "[]"
                         eq_refl eq_refl))).
Defined.

Lemma load_articles_rejects_unsized_value_witness :
  let w := world_with_articles "42" key_in_env padded_brief in
  let path := articles_path (date_key (Some "20240101") w) in
  entries (fs w) !! path = Some (File "42")
  ∧ JsonRef.loads "42" = Return (PInt 42)
  ∧ sized (PInt 42) = false
  ∧ ∃ e, len (PInt 42) = Raise e
       ∧ load_articles JsonRef.loads JsonRef.str_exn (Some "20240101") w
         = (Return None,
            record_effects w
              (date_effects (Some "20240101")
                 ++ [PathExists path; OpenRead path;
                     LogRecord ERROR ("加载文章失败: " +:+ JsonRef.str_exn e)])).
Proof.
  intros w path. do 3 (split; [reflexivity|]).
  apply (load_articles_rejects_unsized_value JsonRef.loads JsonRef.str_exn
           (Some "20240101") w "42" (PInt 42)); reflexivity.
Defined.

Lemma main_ensures_output_directory_first_witness :
  let w := world_with_articles two_articles_text key_in_env padded_brief in
  ArgRef.parse_args flags_with_model = Namespace flags_with_model_parsed
  ∧ (entries (fs w) !! DAILYBRIEF_DIR = Some Dir
     ∨ (entries (fs w) !! DAILYBRIEF_DIR = None ∧ read_only (fs w) = false))
  ∧ entries (fs (snd (run_main flags_with_model w))) !! DAILYBRIEF_DIR = Some Dir.
Proof.
  intros w. split; [reflexivity|]. split; [right; split; reflexivity|].
  destruct (proj1 (main_ensures_output_directory_first JsonRef.loads
                     JsonRef.dumps JsonRef.str_exn ArgRef.parse_args
                     flags_with_model w)
              flags_with_model_parsed eq_refl (or_intror (conj eq_refl eq_refl)))
    as (w1 & later & _ & _ & _ & _ & _ & _ & H).
  exact H.
Defined.

(** C5, at a failing input. With [--model deepseek-reasoner] on the
    command line, the parser hands the override to [main], [main] writes
    it to [DEEPSEEK_MODEL], and the one request it sends still names the
    default model: the client reads [SUMMARY_MODEL]. *)
Theorem model_flag_does_not_reach_request :
  let w := world_with_articles two_articles_text ∅ padded_brief in
  let w' := snd (run_main flags_with_model w) in
  ArgRef.parse_args flags_with_model = Namespace flags_with_model_parsed
  ∧ environ w' !! "DEEPSEEK_MODEL" = Some "deepseek-reasoner"
  ∧ map req_model (network_calls (trace w')) = ["deepseek-chat"].
Proof. by vm_compute. Qed.


(** C10, refuted as stated. Where [dailybrief] is a regular file,
    [os.path.exists] answers yes, nothing is created, the run fails later
    in the writer, and there is no directory afterwards. *)
Lemma no_directory_when_a_file_is_in_the_way :
  let w' := snd (run_main no_flags world_with_file_in_the_way) in
  entries (fs w') !! DAILYBRIEF_DIR = Some (File "")
  ∧ (MakeDirs DAILYBRIEF_DIR ∉ trace w')
  ∧ last (trace w') = Some (LogRecord ERROR "简报生成失败").
Proof.
  vm_compute. split; [done|]. split; [|done].
  intros H. repeat (apply elem_of_cons in H as [H|H]; [discriminate H|]).
  by apply elem_of_nil in H.
Qed.

(** ** More of the program on concrete worlds *)

Lemma ensure_dir_exists_twice_witness :
  let w1 := snd (ensure_dir_exists DAILYBRIEF_DIR sample_world) in
  ensure_dir_exists DAILYBRIEF_DIR sample_world = (Return tt, w1)
  ∧ ensure_dir_exists DAILYBRIEF_DIR w1
    = (Return tt, record_effects w1 [PathExists DAILYBRIEF_DIR]).
Proof.
  intros w1. split; [reflexivity|].
  apply (ensure_dir_exists_twice DAILYBRIEF_DIR sample_world w1 eq_refl).
Defined.

Lemma load_articles_missing_file_witness :
  let path := articles_path (date_key (Some "20240102") sample_world) in
  entries (fs sample_world) !! path = None
  ∧ load_articles JsonRef.loads JsonRef.str_exn (Some "20240102") sample_world
    = (Return None,
       record_effects sample_world
         (date_effects (Some "20240102")
            ++ [PathExists path; LogRecord ERROR ("文件不存在: " +:+ path)])).
Proof.
  intros path. split; [reflexivity|].
  apply (load_articles_missing_file JsonRef.loads JsonRef.str_exn
           (Some "20240102") sample_world eq_refl).
Defined.

Lemma load_articles_unreadable_file_witness :
  let w := world_with_articles "[1, 2" key_in_env padded_brief in
  let path := articles_path (date_key (Some "20240101") w) in
  (∃ text e, entries (fs w) !! path = Some (File text)
             ∧ JsonRef.loads text = Raise e)
  ∧ ∃ e, load_articles JsonRef.loads JsonRef.str_exn (Some "20240101") w
         = (Return None,
            record_effects w
              (date_effects (Some "20240101")
                 ++ [PathExists path; OpenRead path;
                     LogRecord ERROR ("加载文章失败: " +:+ JsonRef.str_exn e)])).
Proof.
  intros w path.
  assert (∃ text e, entries (fs w) !! path = Some (File text)
                    ∧ JsonRef.loads text = Raise e) as Hbad.
  { exists "[1, 2", (JSONDecodeError "Expecting value"). split; reflexivity. }
  split; [exact Hbad|].
  apply (load_articles_unreadable_file JsonRef.loads JsonRef.str_exn
           (Some "20240101") w (or_intror Hbad)).
Defined.

Lemma load_articles_accepts_any_sized_value_witness :
  let w := world_with_articles one_object_text key_in_env padded_brief in
  let path := articles_path (date_key (Some "20240101") w) in
  entries (fs w) !! path = Some (File one_object_text)
  ∧ JsonRef.loads one_object_text = Return (PDict [("title", PStr "only")])
  ∧ sized (PDict [("title", PStr "only")]) = true
  ∧ ∃ n, len (PDict [("title", PStr "only")]) = Return n
       ∧ load_articles JsonRef.loads JsonRef.str_exn (Some "20240101") w
         = (Return (Some (PDict [("title", PStr "only")])),
            record_effects w
              (date_effects (Some "20240101")
                 ++ [PathExists path; OpenRead path;
                     LogRecord INFO
                       ("从 " +:+ path +:+ " 加载了 " +:+ str_nat n
                          +:+ " 篇文章")])).
Proof.
  intros w path. do 3 (split; [reflexivity|]).
  apply (load_articles_accepts_any_sized_value JsonRef.loads JsonRef.str_exn
           (Some "20240101") w one_object_text (PDict [("title", PStr "only")]));
    reflexivity.
Defined.


Lemma call_deepseek_api_returns_first_choice_witness :
  credential None sample_world = Some "sk-test"
  ∧ ∃ w', call_deepseek_api JsonRef.dumps JsonRef.str_exn None
            (Some DEFAULT_PROMPT) (Some (PList two_articles)) sample_world
          = (Return (first_choice
                       (endpoint sample_world
                          (summary_request JsonRef.dumps "sk-test"
                             (Some DEFAULT_PROMPT) (Some (PList two_articles))
                             (environ sample_world)))), w')
        ∧ fs w' = fs sample_world
        ∧ environ w' = environ sample_world.
Proof.
  split; [reflexivity|].
  apply (call_deepseek_api_returns_first_choice JsonRef.dumps JsonRef.str_exn
           None "sk-test" (Some DEFAULT_PROMPT) (Some (PList two_articles))
           sample_world eq_refl).
Defined.


Lemma read_only_volume_fails_the_run_witness :
  read_only (fs read_only_world) = true
  ∧ ∃ w', generate_daily_brief JsonRef.loads JsonRef.dumps JsonRef.str_exn None
            (Some "20240101") read_only_world = (Return false, w')
        ∧ fs w' = fs read_only_world.
Proof.
  split; [reflexivity|].
  apply (proj2 (read_only_volume_fails_the_run JsonRef.loads JsonRef.dumps
                  JsonRef.str_exn None (Some "20240101") padded_brief
                  read_only_world eq_refl)).
Defined.

(** The articles file after a whole run is the one of before. *)
Lemma main_touches_only_its_paths_witness :
  "articles/20240101.json" ≠ DAILYBRIEF_DIR
  ∧ (∀ args, ArgRef.parse_args flags_with_date = Namespace args →
             "articles/20240101.json"
             ≠ brief_path (writer_key (args_date args) sample_world))
  ∧ entries (fs (snd (run_main flags_with_date sample_world)))
      !! "articles/20240101.json"
    = entries (fs sample_world) !! "articles/20240101.json".
Proof.
  assert ("articles/20240101.json" ≠ DAILYBRIEF_DIR) as H1 by discriminate.
  assert (∀ args, ArgRef.parse_args flags_with_date = Namespace args →
                  "articles/20240101.json"
                  ≠ brief_path (writer_key (args_date args) sample_world))
    as H2.
  { intros args Hparse. vm_compute in Hparse. injection Hparse as <-.
    discriminate. }
  split; [exact H1|]. split; [exact H2|].
  apply (main_touches_only_its_paths JsonRef.loads JsonRef.dumps JsonRef.str_exn
           ArgRef.parse_args flags_with_date sample_world
           "articles/20240101.json" H1 H2).
Defined.

Lemma explicit_date_never_reads_clock_witness :
  (∀ args, ArgRef.parse_args flags_with_date = Namespace args →
           truthy_str (args_date args) = true)
  ∧ clock_reads (trace (snd (run_main flags_with_date sample_world)))
    = clock_reads (trace sample_world).
Proof.
  assert (∀ args, ArgRef.parse_args flags_with_date = Namespace args →
                  truthy_str (args_date args) = true) as Hdate.
  { intros args Hparse. vm_compute in Hparse. injection Hparse as <-.
    reflexivity. }
  split; [exact Hdate|].
  apply (explicit_date_never_reads_clock JsonRef.loads JsonRef.dumps
           JsonRef.str_exn ArgRef.parse_args flags_with_date sample_world Hdate).
Defined.

(** Both ways the text of the endpoint can go: the padded brief is
    written, the one with a surrogate leaves the file empty. *)
Lemma generate_daily_brief_writes_choice_text_witness :
  let w := world_with_old_brief broken_brief in
  let path := brief_path (writer_key (Some "20240101") w) in
  utf8_valid broken_brief = false
  ∧ broken_brief ≠ ""
  ∧ entries (fs w) !! path = Some (File "# Old brief")
  ∧ ∃ w', generate_daily_brief JsonRef.loads JsonRef.dumps JsonRef.str_exn None
            (Some "20240101") w = (Return (utf8_valid broken_brief), w')
        ∧ entries (fs w') !! path
          = Some (File (if utf8_valid broken_brief then broken_brief else "")).
Proof.
  intros w path.
  assert (broken_brief ≠ "") as Hne by discriminate.
  split; [reflexivity|]. split; [exact Hne|]. split; [reflexivity|].
  apply (generate_daily_brief_writes_choice_text JsonRef.loads JsonRef.dumps
           JsonRef.str_exn None "sk-test" (Some "20240101") w
           two_articles_text (PList two_articles) broken_brief []
           eq_refl eq_refl eq_refl eq_refl eq_refl eq_refl Hne eq_refl eq_refl
           eq_refl eq_refl).
Defined.

Lemma empty_choice_text_is_not_written_witness :
  let w := world_with_articles two_articles_text key_in_env "" in
  let r := summary_request JsonRef.dumps "sk-test" (Some DEFAULT_PROMPT)
             (Some (PList two_articles)) (environ w) in
  endpoint w r = ApiResponse [Some ""]
  ∧ ∃ n, len (PList two_articles) = Return n
       ∧ generate_daily_brief JsonRef.loads JsonRef.dumps JsonRef.str_exn None
           (Some "20240101") w
         = (Return false,
            record_effects w
              (effects_until_request None (Some "20240101")
                 (articles_path (date_key (Some "20240101") w)) n
               ++ [EnvGet "SUMMARY_MODEL"; HttpPost r;
                   LogRecord INFO "成功生成摘要"])).
Proof.
  intros w r. split; [reflexivity|].
  apply (empty_choice_text_is_not_written JsonRef.loads JsonRef.dumps
           JsonRef.str_exn None "sk-test" (Some "20240101") w
           two_articles_text (PList two_articles) (Some "") []);
    reflexivity.
Defined.
